(** * REAR: ranking loss and scoring head of [modeling_rankllama.py]

    A shallow embedding of [LossForRank] and of the methods [forward],
    [ans] and [rel_eval] of [LlamaForRear], with the properties of the
    repository's specification stated over it.

    Numbers.  A tensor element is an exact rational, one of the two
    infinities, or NaN ([fl]).  The special values follow IEEE-754 (an
    undefined operation gives NaN, every ordered comparison with NaN is
    false, a finite value divided by zero is infinite); finite arithmetic is
    exact, so rounding, overflow of finite values and the sign of zero are
    outside the model.

    Python.  A call returns [Ok v] or raises ([Err e]); statements are
    sequenced with [x <- e ;; k], which stops at the first exception. *)

From Stdlib Require Import String.
From Stdlib Require Import ZArith QArith Qcanon Bool Arith Lia List.
Import ListNotations.
Local Open Scope nat_scope.

Set Implicit Arguments.

(** ** Exceptions *)

Inductive pyerr : Type :=
| AttributeError
| TypeError
| IndexError
| RuntimeError
| ValueError.

Inductive result (A : Type) : Type :=
| Ok (a : A)
| Err (e : pyerr).

Arguments Ok {A} a.
Arguments Err {A} e.

Definition bind {A B : Type} (r : result A) (k : A -> result B) : result B :=
  match r with
  | Ok a => k a
  | Err e => Err e
  end.

Definition fmap {A B : Type} (f : A -> B) (r : result A) : result B :=
  match r with
  | Ok a => Ok (f a)
  | Err e => Err e
  end.

Declare Scope py_scope.
Delimit Scope py_scope with py.
Notation "x <- e ;; k" := (bind e (fun x => k))
  (at level 61, e at next level, right associativity) : py_scope.
Notation "f <$> r" := (fmap f r) (at level 60, right associativity) : py_scope.
Open Scope py_scope.

(** ** Tensor elements *)

Inductive fl : Type :=
| Fin (q : Qc)
| Inf (neg : bool)
| NaN.

Definition Qc_ltb (a b : Qc) : bool :=
  match (a ?= b)%Qc with Lt => true | _ => false end.

Definition Qc_eqb (a b : Qc) : bool :=
  match (a ?= b)%Qc with Eq => true | _ => false end.

Definition Qc_of_nat (n : nat) : Qc := Q2Qc (inject_Z (Z.of_nat n)).

Definition fl_of_nat (n : nat) : fl := Fin (Qc_of_nat n).
Definition fl_of_Z (z : Z) : fl := Fin (Q2Qc (inject_Z z)).

Definition zero : fl := Fin 0%Qc.
Definition one : fl := Fin 1%Qc.
Definition half : fl := Fin (Q2Qc (1 # 2)).

Definition isinf (a : fl) : bool :=
  match a with Inf _ => true | _ => false end.

Definition isnan (a : fl) : bool :=
  match a with NaN => true | _ => false end.

Definition isfinite (a : fl) : bool :=
  match a with Fin _ => true | _ => false end.

Definition fl_lt (a b : fl) : bool :=
  match a, b with
  | Fin x, Fin y => Qc_ltb x y
  | Fin _, Inf neg => negb neg
  | Inf neg, Fin _ => neg
  | Inf n1, Inf n2 => n1 && negb n2
  | _, _ => false
  end.

Definition fl_le (a b : fl) : bool :=
  match a, b with
  | NaN, _ | _, NaN => false
  | _, _ => negb (fl_lt b a)
  end.

Definition fl_gt (a b : fl) : bool := fl_lt b a.
Definition fl_ge (a b : fl) : bool := fl_le b a.

Definition fl_opp (a : fl) : fl :=
  match a with
  | Fin x => Fin (- x)%Qc
  | Inf neg => Inf (negb neg)
  | NaN => NaN
  end.

Definition fl_add (a b : fl) : fl :=
  match a, b with
  | Fin x, Fin y => Fin (x + y)%Qc
  | Fin _, Inf n | Inf n, Fin _ => Inf n
  | Inf n1, Inf n2 => if Bool.eqb n1 n2 then Inf n1 else NaN
  | _, _ => NaN
  end.

Definition fl_sub (a b : fl) : fl := fl_add a (fl_opp b).

Definition fl_mul (a b : fl) : fl :=
  match a, b with
  | Fin x, Fin y => Fin (x * y)%Qc
  | Fin x, Inf n | Inf n, Fin x =>
      if Qc_eqb x 0 then NaN else Inf (xorb n (Qc_ltb x 0))
  | Inf n1, Inf n2 => Inf (xorb n1 n2)
  | _, _ => NaN
  end.

Definition fl_div (a b : fl) : fl :=
  match a, b with
  | Fin x, Fin y =>
      if Qc_eqb y 0
      then (if Qc_eqb x 0 then NaN else Inf (Qc_ltb x 0))
      else Fin (x / y)%Qc
  | Fin _, Inf _ => zero
  | Inf n, Fin y => Inf (xorb n (Qc_ltb y 0))
  | _, _ => NaN
  end.

Definition fl_sum (xs : list fl) : fl := fold_left fl_add xs zero.

(** ** The part of torch the loss uses *)

Inductive reduction : Type := Mean | Sum.

Section Model.

(** [bce_elt x y] is the loss [F.binary_cross_entropy_with_logits] assigns to
    one logit [x] with target [y] before reduction.  Its value is computed by
    torch with [exp] and [log]; nothing below depends on it. *)
Variable bce_elt : fl -> fl -> fl.

Definition elementwise (input target : list fl) : list fl :=
  map (fun xy => bce_elt (fst xy) (snd xy)) (combine input target).

(** [reduction="mean"] is [sum / numel], hence NaN on an empty tensor;
    [reduction="sum"] of an empty tensor is 0. *)
Definition binary_cross_entropy_with_logits
    (input target : list fl) (red : reduction) : result fl :=
  if length input =? length target then
    let l := elementwise input target in
    match red with
    | Sum => Ok (fl_sum l)
    | Mean => Ok (fl_div (fl_sum l) (fl_of_nat (length l)))
    end
  else Err ValueError.

Definition ones_like (xs : list fl) : list fl := map (fun _ => one) xs.
Definition zeros_like (xs : list fl) : list fl := map (fun _ => zero) xs.

(** [t.view(-1, cols)] of a one-dimensional tensor: the rows, in order. *)
Fixpoint chunks (rows cols : nat) (xs : list fl) : list (list fl) :=
  match rows with
  | O => []
  | S r => firstn cols xs :: chunks r cols (skipn cols xs)
  end.

Definition view_rows (cols : Z) (xs : list fl) : result (list (list fl)) :=
  if (cols <=? 0)%Z then Err RuntimeError
  else
    let p := Z.to_nat cols in
    if length xs mod p =? 0 then Ok (chunks (length xs / p) p xs)
    else Err RuntimeError.

(** [t[mask]] with a boolean mask of the shape of [t], on one row and on a
    matrix (row-major order of the selected elements). *)
Definition select {A : Type} (row : list A) (mask : list bool) : list A :=
  map fst (filter snd (combine row mask)).

Definition masked_select (t : list (list fl)) (mask : list (list bool))
  : result (list fl) :=
  if length t =? length mask
  then Ok (concat (map (fun rm => select (fst rm) (snd rm)) (combine t mask)))
  else Err IndexError.

Definition masked_select1 (t : list fl) (mask : list bool) : result (list fl) :=
  if length t =? length mask then Ok (select t mask) else Err IndexError.

(** ** class LossForRank *)

Inductive loss_method : Type := bi_method | fine_method | coarse_method.

Record LossForRank : Type := {
  bias : fl;
  psg_num : Z;
  ignore_minor_diff : fl;
  bce_bias : fl;
  loss_fn : loss_method
}.

(** [self.<name>] where [__init__] picks the loss method.  The class defines
    the methods [bi], [fine] and [coarse] (besides [__init__] and
    [__call__]), and at that point the instance has the attributes [bias],
    [compute_loss], [psg_num], [ignore_minor_diff] and [bce_bias]; a name
    that is none of these raises AttributeError. *)
Definition LossForRank_methods : list (string * loss_method) :=
  [("bi"%string, bi_method); ("fine"%string, fine_method);
   ("coarse"%string, coarse_method)].

Fixpoint lookup {A : Type} (name : string) (tbl : list (string * A)) : option A :=
  match tbl with
  | [] => None
  | (k, v) :: tbl' => if String.eqb name k then Some v else lookup name tbl'
  end.

Definition getattr_method (name : string) : result loss_method :=
  match lookup name LossForRank_methods with
  | Some m => Ok m
  | None => Err AttributeError
  end.

(** [LossForRank.__init__] *)
Definition LossForRank_init
    (is_warm_up : bool) (bias : fl) (psg_num : Z)
    (ignore_minor_diff : fl) (bce_bias : fl) : result LossForRank :=
  f <- (if is_warm_up then getattr_method "bce" else getattr_method "bi") ;;
  Ok {| bias := bias; psg_num := psg_num;
        ignore_minor_diff := ignore_minor_diff;
        bce_bias := bce_bias; loss_fn := f |}.

(** [list(product(range(n), repeat=2))] *)
Definition product_range (n : nat) : list (nat * nat) :=
  list_prod (seq 0 n) (seq 0 n).

(** [row[i] - row[j]] for the pair [ij]; the candidates of [fine] are
    indices below the row length. *)
Definition diff (row : list fl) (ij : nat * nat) : fl :=
  fl_sub (nth (fst ij) row NaN) (nth (snd ij) row NaN).

(** [y[:, cands][:, :, 0] - y[:, cands][:, :, 1]] *)
Definition pair_diffs (cands : list (nat * nat)) (y : list (list fl))
  : list (list fl) :=
  map (fun row => map (diff row) cands) y.

Definition the_mask_of (thr : fl) (true_diffs : list (list fl))
  : list (list bool) :=
  map (map (fun d => fl_gt d thr && negb (isinf d))) true_diffs.

Definition binarize (ds : list fl) : list fl :=
  map (fun d => if fl_gt d zero then one else zero) ds.

(** The body of [fine] with the list of candidate pairs as a parameter. *)
Definition fine_on (cands : list (nat * nat)) (self : LossForRank)
    (scores labels : list fl) : result fl :=
  y_pred <- view_rows (psg_num self) scores ;;
  y_true <- view_rows (psg_num self) labels ;;
  let true_diffs := pair_diffs cands y_true in
  let pred_diffs := pair_diffs cands y_pred in
  let the_mask := the_mask_of (ignore_minor_diff self) true_diffs in
  pred_diffs <- masked_select pred_diffs the_mask ;;
  true_diffs <- masked_select true_diffs the_mask ;;
  let true_diffs := binarize true_diffs in
  binary_cross_entropy_with_logits pred_diffs true_diffs Mean.

(** [LossForRank.fine]; [y_true.shape[1]] is [psg_num]. *)
Definition fine (self : LossForRank) (scores labels : list fl) : result fl :=
  fine_on (product_range (Z.to_nat (psg_num self))) self scores labels.

(** [LossForRank.coarse] *)
Definition coarse (self : LossForRank) (scores labels : list fl) : result fl :=
  let classes := map (fun l => fl_ge l half) labels in
  pos_scores <- masked_select1 scores classes ;;
  neg_scores <- masked_select1 scores (map negb classes) ;;
  let loss := zero in
  loss <- (if length pos_scores =? 0 then Ok loss
           else l <- binary_cross_entropy_with_logits
                       pos_scores (ones_like pos_scores) Sum ;;
                Ok (fl_add loss l)) ;;
  loss <- (if length neg_scores =? 0 then Ok loss
           else l <- binary_cross_entropy_with_logits
                       neg_scores (zeros_like neg_scores) Sum ;;
                Ok (fl_add loss (fl_mul (bias self) l))) ;;
  Ok (fl_div loss (fl_of_nat (length scores))).

(** [LossForRank.bi] *)
Definition bi (self : LossForRank) (scores labels : list fl) : result fl :=
  f <- fine self scores labels ;;
  c <- coarse self scores labels ;;
  Ok (fl_add (fl_mul half f) (fl_mul (bce_bias self) c)).

(** [LossForRank.__call__] with the keywords [scores] and [labels] *)
Definition call (self : LossForRank) (scores labels : list fl) : result fl :=
  match loss_fn self with
  | bi_method => bi self scores labels
  | fine_method => fine self scores labels
  | coarse_method => coarse self scores labels
  end.

(** ** Tensors of any rank and indexed assignment *)

Record tensor : Type := { shape : list nat; data : list fl }.

Definition numel (shape : list nat) : nat := fold_right Nat.mul 1 shape.

(** [torch.full(shape, v)] *)
Definition full (shape : list nat) (v : fl) : tensor :=
  {| shape := shape; data := repeat v (numel shape) |}.

(** The coordinates of the element at row-major offset [o]. *)
Fixpoint unravel (shape : list nat) (o : nat) : list nat :=
  match shape with
  | [] => []
  | _ :: rest => (o / numel rest) :: unravel rest (o mod numel rest)
  end.

(** One entry of the index tuple of [t[...] = v]: a boolean tensor, a
    one-dimensional integer tensor, or a Python int. *)
Inductive index : Type :=
| IdxBool (mask_shape : list nat) (mask : list bool)
| IdxLong (ix : list Z)
| IdxInt (i : Z).

(** torch counts a boolean tensor for as many dimensions as it has, anything
    else for one. *)
Definition specified_dimensions (ix : index) : nat :=
  match ix with
  | IdxBool mask_shape _ => length mask_shape
  | IdxLong _ => 1
  | IdxInt _ => 1
  end.

Definition count_specified_dimensions (ixs : list index) : nat :=
  fold_right (fun ix n => specified_dimensions ix + n) 0 ixs.

Fixpoint mapM {A B : Type} (f : A -> result B) (xs : list A) : result (list B) :=
  match xs with
  | [] => Ok []
  | x :: xs' => y <- f x ;; ys <- mapM f xs' ;; Ok (y :: ys)
  end.

(** A possibly negative index into a dimension of size [n]. *)
Definition wrap_index (n : nat) (i : Z) : result nat :=
  if ((0 <=? i) && (i <? Z.of_nat n))%Z then Ok (Z.to_nat i)
  else if ((- Z.of_nat n <=? i) && (i <? 0))%Z then Ok (Z.to_nat (i + Z.of_nat n))
  else Err IndexError.

Definition nonzero (mask_shape : list nat) (mask : list bool) : list (list nat) :=
  map (unravel mask_shape) (select (seq 0 (length mask)) mask).

(** Each index entry becomes one vector of coordinates per dimension it
    covers; [dims] are the sizes of the dimensions not yet indexed. *)
Fixpoint expand_indices (dims : list nat) (ixs : list index)
  : result (list (list nat)) :=
  match ixs with
  | [] => Ok []
  | IdxBool mask_shape mask :: ixs' =>
      let k := length mask_shape in
      if list_eq_dec Nat.eq_dec mask_shape (firstn k dims) then
        rest <- expand_indices (skipn k dims) ixs' ;;
        let nz := nonzero mask_shape mask in
        Ok (map (fun j => map (fun c => nth j c 0) nz) (seq 0 k) ++ rest)
      else Err IndexError
  | IdxLong ix :: ixs' =>
      v <- mapM (wrap_index (hd 0 dims)) ix ;;
      rest <- expand_indices (tl dims) ixs' ;;
      Ok (v :: rest)
  | IdxInt i :: ixs' =>
      c <- wrap_index (hd 0 dims) i ;;
      rest <- expand_indices (tl dims) ixs' ;;
      Ok ([c] :: rest)
  end.

(** Broadcasting of the coordinate vectors: every length is 1 or the common
    length. *)
Definition broadcast_length (vs : list (list nat)) : result nat :=
  let ls := filter (fun n => negb (n =? 1)) (map (@length nat) vs) in
  match ls with
  | [] => Ok 1
  | n :: ls' => if forallb (Nat.eqb n) ls' then Ok n else Err IndexError
  end.

Definition coordinate (vs : list (list nat)) (k : nat) : list nat :=
  map (fun v => nth (if length v =? 1 then 0 else k) v 0) vs.

Fixpoint is_prefix (p l : list nat) : bool :=
  match p, l with
  | [], _ => true
  | x :: p', y :: l' => (x =? y) && is_prefix p' l'
  | _ :: _, [] => false
  end.

(** [t[ixs] = v] for a scalar [v] *)
Definition setitem (t : tensor) (ixs : list index) (v : fl) : result tensor :=
  if length (shape t) <? count_specified_dimensions ixs then Err IndexError
  else
    vs <- expand_indices (shape t) ixs ;;
    n <- broadcast_length vs ;;
    let targets := map (coordinate vs) (seq 0 n) in
    Ok {| shape := shape t;
          data := map (fun ox =>
                         if existsb (fun c => is_prefix c (unravel (shape t) (fst ox)))
                                    targets
                         then v else snd ox)
                      (combine (seq 0 (length (data t))) (data t)) |}.

(** ** Values and output classes *)

(** Attention maps, caches and hidden-state traces are passed through
    untouched. *)
Inductive artifact : Type := Artifact (id : nat).

Inductive pyval : Type :=
| PyNone
| PyFloat (x : fl)
| PyTensor (t : tensor)
| PyHidden (h : list (list (list fl)))
| PyArtifact (a : artifact).

Definition is_none (v : pyval) : bool :=
  match v with PyNone => true | _ => false end.

Inductive output_class : Type :=
| RearOutput
| CausalLMOutputWithPast
| BaseModelOutputWithPast.

(** The fields each dataclass declares, in order. *)
Definition declared (c : output_class) : list string :=
  match c with
  | RearOutput =>
      ["rel_scores"; "loss"; "logits"; "past_key_values"; "hidden_states";
       "attentions"]%string
  | CausalLMOutputWithPast =>
      ["loss"; "logits"; "past_key_values"; "hidden_states"; "attentions"]%string
  | BaseModelOutputWithPast =>
      ["last_hidden_state"; "past_key_values"; "hidden_states"; "attentions"]%string
  end.

Record ModelOutput : Type := {
  class_of : output_class;
  fields : list (string * pyval)
}.

Definition declares (c : output_class) (name : string) : bool :=
  existsb (String.eqb name) (declared c).

(** [C(k1=v1, ...)]: a keyword that is not a field is a TypeError; a field
    that is not given is None. *)
Definition new (c : output_class) (kwargs : list (string * pyval))
  : result ModelOutput :=
  if forallb (fun kv => declares c (fst kv)) kwargs
  then Ok {| class_of := c; fields := kwargs |}
  else Err TypeError.

Definition field (o : ModelOutput) (name : string) : pyval :=
  match lookup name (fields o) with
  | Some v => v
  | None => PyNone
  end.

(** [o.name] *)
Definition getattr (o : ModelOutput) (name : string) : result pyval :=
  if declares (class_of o) name then Ok (field o name) else Err AttributeError.

(** [o.to_tuple()]: the fields that are not None *)
Definition to_tuple (o : ModelOutput) : list pyval :=
  filter (fun v => negb (is_none v)) (map (field o) (declared (class_of o))).

(** What [self.model(...)] returns: a [BaseModelOutputWithPast], or a plain
    tuple. *)
Inductive backbone_out : Type :=
| AsOutput (o : ModelOutput)
| AsTuple (items : list pyval).

Definition items_of (outputs : backbone_out) : list pyval :=
  match outputs with
  | AsOutput o => to_tuple o
  | AsTuple items => items
  end.

(** [outputs[0]], used as the hidden states; anything else in that place
    cannot be projected. *)
Definition first_item (outputs : backbone_out) : result (list (list (list fl))) :=
  match items_of outputs with
  | PyHidden h :: _ => Ok h
  | _ :: _ => Err TypeError
  | [] => Err IndexError
  end.

(** [outputs.name]; a tuple has no such attribute. *)
Definition getattr_outputs (outputs : backbone_out) (name : string)
  : result pyval :=
  match outputs with
  | AsOutput o => getattr o name
  | AsTuple _ => Err AttributeError
  end.

Inductive forward_out : Type :=
| Returns (o : ModelOutput)
| ReturnsTuple (items : list pyval).

(** [a * b] and [a + b] on a float or zero-dimensional tensor; None is not
    an operand. *)
Definition py_mul (a b : pyval) : result pyval :=
  match a, b with
  | PyFloat x, PyFloat y => Ok (PyFloat (fl_mul x y))
  | _, _ => Err TypeError
  end.

Definition py_add (a b : pyval) : result pyval :=
  match a, b with
  | PyFloat x, PyFloat y => Ok (PyFloat (fl_add x y))
  | _, _ => Err TypeError
  end.

(** ** class LlamaForRear *)

(** The attributes the three methods read.  [rel_score] is the weight of
    [nn.Linear(hidden_size, num_labels, bias=False)] with [num_labels] at its
    default 1, one row.  [model], [lm_head] and [shifted_ans_fn] belong to
    the backbone and to torch: [model input_ids return_dict] is the call
    [self.model(...)]; [shifted_ans_fn logits labels] stands for the three
    lines of [ans] that slice, [view] and apply [self.ans_fn].  What they
    return, and when they raise, is decided by torch's [view] on the sliced
    storage and by [CrossEntropyLoss]; it is left open, and every property
    below holds whatever they do. *)
Record LlamaForRear : Type := {
  beta : option fl;
  rel_token_id : Z;
  irr_token_id : Z;
  gen_score_id : Z;
  rel_score : list fl;
  rel_eval_fn : LossForRank;
  threshold : fl;
  use_return_dict : bool;
  model : list (list Z) -> bool -> result backbone_out;
  lm_head : list (list (list fl)) -> tensor;
  lm_head_out_features : nat;
  shifted_ans_fn : tensor -> list (list Z) -> result fl
}.

(** [LlamaForRear.ans] *)
Definition ans (self : LlamaForRear) (outputs : backbone_out)
    (labels : option (list (list Z))) : result ModelOutput :=
  hidden_states <- first_item outputs ;;
  let logits := lm_head self hidden_states in
  let loss := zero in
  loss <- match labels with
          | Some labels => shifted_ans_fn self logits labels
          | None => Ok loss
          end ;;
  past_key_values <- getattr_outputs outputs "past_key_values" ;;
  hidden_states <- getattr_outputs outputs "hidden_states" ;;
  attentions <- getattr_outputs outputs "attentions" ;;
  new CausalLMOutputWithPast
      [("loss"%string, PyFloat loss); ("logits"%string, PyTensor logits);
       ("past_key_values"%string, past_key_values);
       ("hidden_states"%string, hidden_states);
       ("attentions"%string, attentions)].

(** [row.argmax(-1)]: the index of the first maximal entry; an empty row has
    none. *)
Fixpoint argmax_from (best_i : nat) (best : Z) (i : nat) (xs : list Z) : nat :=
  match xs with
  | [] => best_i
  | x :: xs' =>
      if (best <? x)%Z then argmax_from i x (S i) xs'
      else argmax_from best_i best (S i) xs'
  end.

Definition argmax (xs : list Z) : result nat :=
  match xs with
  | [] => Err IndexError
  | x :: xs' => Ok (argmax_from 0 x 1 xs')
  end.

(** [torch.eq(row, id).long()] *)
Definition eq_long (id : Z) (row : list Z) : list Z :=
  map (fun t => if (t =? id)%Z then 1%Z else 0%Z) row.

(** Two index vectors broadcast against each other. *)
Definition broadcast2 (a b : list nat) : result (list (nat * nat)) :=
  if length a =? length b then Ok (combine a b)
  else match a, b with
       | [x], _ => Ok (map (fun y => (x, y)) b)
       | _, [y] => Ok (map (fun x => (x, y)) a)
       | _, _ => Err IndexError
       end.

(** [h[rows, cols]] for a three-dimensional [h] *)
Definition index_rows (h : list (list (list fl))) (rows cols : list nat)
  : result (list (list fl)) :=
  ij <- broadcast2 rows cols ;;
  mapM (fun p =>
          match nth_error h (fst p) with
          | Some seq =>
              match nth_error seq (snd p) with
              | Some v => Ok v
              | None => Err IndexError
              end
          | None => Err IndexError
          end) ij.

Definition dot (w h : list fl) : fl :=
  fl_sum (map (fun hw => fl_mul (fst hw) (snd hw)) (combine h w)).

(** [self.rel_score(rows)]: a tensor of shape (rows, 1) *)
Definition linear (w : list fl) (rows : list (list fl)) : result tensor :=
  if forallb (fun h => length h =? length w) rows
  then Ok {| shape := [length rows; 1]; data := map (dot w) rows |}
  else Err RuntimeError.

(** The first six lines of [rel_eval]: positions, gather, projection. *)
Definition rel_logits_of (self : LlamaForRear) (input_ids : list (list Z))
    (hidden_states : list (list (list fl))) : result (list nat * tensor) :=
  rel_position <- mapM (fun row => argmax (eq_long (gen_score_id self) row))
                       input_ids ;;
  let batch_size := length hidden_states in
  rel_hidden_states <- index_rows hidden_states (seq 0 batch_size) rel_position ;;
  rel_logits <- linear (rel_score self) rel_hidden_states ;;
  Ok (rel_position, rel_logits).

Definition hundred : fl := fl_of_Z 100.

(** The override logits of [rel_eval], built when [beta] is None. *)
Definition override_logits (self : LlamaForRear)
    (hidden_states : list (list (list fl)))
    (rel_position : list nat) (rel_logits : tensor) : result tensor :=
  let logits :=
    full [length hidden_states; length (hd [] hidden_states);
          lm_head_out_features self] (fl_opp hundred) in
  logits <- setitem logits
              [IdxBool (shape rel_logits)
                       (map (fun x => fl_gt x (threshold self)) (data rel_logits));
               IdxLong (map Z.of_nat rel_position);
               IdxInt (rel_token_id self)]
              hundred ;;
  logits <- setitem logits
              [IdxBool (shape rel_logits)
                       (map (fun x => fl_le x (threshold self)) (data rel_logits));
               IdxLong (map Z.of_nat rel_position);
               IdxInt (irr_token_id self)]
              hundred ;;
  Ok logits.

(** [LlamaForRear.rel_eval] *)
Definition rel_eval (self : LlamaForRear) (input_ids : list (list Z))
    (outputs : backbone_out) (classes : option (list fl)) : result ModelOutput :=
  hidden_states <- first_item outputs ;;
  pl <- rel_logits_of self input_ids hidden_states ;;
  let rel_position := fst pl in
  let rel_logits := snd pl in
  loss <- match classes with
          | Some classes =>
              l <- call (rel_eval_fn self) (data rel_logits) classes ;;
              Ok (PyFloat l)
          | None => Ok PyNone
          end ;;
  logits <- match beta self with
            | None =>
                t <- override_logits self hidden_states rel_position rel_logits ;;
                Ok (PyTensor t)
            | Some _ => Ok PyNone
            end ;;
  past_key_values <- getattr_outputs outputs "past_key_values" ;;
  hidden_states <- getattr_outputs outputs "hidden_states" ;;
  attentions <- getattr_outputs outputs "attentions" ;;
  new RearOutput
      [("loss"%string, loss); ("logits"%string, logits);
       ("rel_scores"%string, PyTensor rel_logits);
       ("past_key_values"%string, past_key_values);
       ("hidden_states"%string, hidden_states);
       ("attentions"%string, attentions)].

(** [id in row] *)
Definition contains (id : Z) (row : list Z) : bool :=
  existsb (fun t => (t =? id)%Z) row.

(** [return_dict if return_dict is not None else self.config.use_return_dict] *)
Definition resolve_return_dict (self : LlamaForRear) (return_dict : option bool)
  : bool :=
  match return_dict with
  | Some b => b
  | None => use_return_dict self
  end.

(** [LlamaForRear.forward] *)
Definition forward (self : LlamaForRear) (input_ids : list (list Z))
    (labels : option (list (list Z))) (classes : option (list fl))
    (return_dict : option bool) : result forward_out :=
  let return_dict := resolve_return_dict self return_dict in
  outputs <- model self input_ids return_dict ;;
  match beta self with
  | None =>
      first <- match input_ids with
               | row :: _ => Ok row
               | [] => Err IndexError
               end ;;
      if contains (rel_token_id self) first || contains (irr_token_id self) first
      then o <- ans self outputs labels ;; Ok (Returns o)
      else o <- rel_eval self input_ids outputs None ;; Ok (Returns o)
  | Some beta =>
      sft_output <- ans self outputs labels ;;
      rank_output <- rel_eval self input_ids outputs classes ;;
      sft_loss <- getattr sft_output "loss" ;;
      rank_loss <- getattr rank_output "loss" ;;
      weighted <- py_mul (PyFloat beta) rank_loss ;;
      loss <- py_add sft_loss weighted ;;
      if negb return_dict then
        sft_logits <- getattr sft_output "logits" ;;
        let output := sft_logits :: tl (items_of outputs) in
        Ok (ReturnsTuple (if is_none loss then output else loss :: output))
      else
        sft_logits <- getattr sft_output "logits" ;;
        rel_scores <- getattr rank_output "rel_scores" ;;
        verify_scores <- getattr rank_output "verify_scores" ;;
        past_key_values <- getattr_outputs outputs "past_key_values" ;;
        hidden_states <- getattr_outputs outputs "hidden_states" ;;
        attentions <- getattr_outputs outputs "attentions" ;;
        o <- new RearOutput
               [("loss"%string, loss); ("logits"%string, sft_logits);
                ("rel_scores"%string, rel_scores);
                ("verify_scores"%string, verify_scores);
                ("past_key_values"%string, past_key_values);
                ("hidden_states"%string, hidden_states);
                ("attentions"%string, attentions)] ;;
        Ok (Returns o)
  end.

(** ** The terms as the specification words them *)

(** A pair survives when its true difference exceeds the threshold and is
    finite. *)
Definition survives (thr : fl) (true_diff : fl) : bool :=
  fl_gt true_diff thr && isfinite true_diff.

(** The (true_diff, pred_diff) of every ordered pair of positions of group
    [g], self-pairs included. *)
Definition group_pairs (cands : list (nat * nat)) (p : nat)
    (scores labels : list fl) (g : nat) : list (fl * fl) :=
  map (fun ij =>
         (fl_sub (nth (g * p + fst ij) labels NaN) (nth (g * p + snd ij) labels NaN),
          fl_sub (nth (g * p + fst ij) scores NaN) (nth (g * p + snd ij) scores NaN)))
      cands.

Definition batch_pairs (p : nat) (scores labels : list fl) : list (fl * fl) :=
  flat_map (group_pairs (product_range p) p scores labels)
           (seq 0 (length labels / p)).

Definition pair_loss (tp : fl * fl) : fl :=
  bce_elt (snd tp) (if fl_gt (fst tp) zero then one else zero).

Definition average (xs : list fl) : fl :=
  fl_div (fl_sum xs) (fl_of_nat (length xs)).

Definition Pairwise (minor_diff_threshold : fl) (group_size : nat)
    (scores labels : list fl) : fl :=
  let surviving :=
    filter (fun tp => survives minor_diff_threshold (fst tp))
           (batch_pairs group_size scores labels) in
  average (map pair_loss surviving).

(** The pointwise term, with the test that makes a label negative as a
    parameter. *)
Definition Pointwise_with (negative : fl -> bool) (negative_bias : fl)
    (scores labels : list fl) : fl :=
  let examples := combine scores labels in
  let positives := map fst (filter (fun sl => fl_ge (snd sl) half) examples) in
  let negatives := map fst (filter (fun sl => negative (snd sl)) examples) in
  let pos_term :=
    match positives with
    | [] => zero
    | _ => fl_sum (map (fun s => bce_elt s one) positives)
    end in
  let neg_term :=
    match negatives with
    | [] => zero
    | _ => fl_mul negative_bias (fl_sum (map (fun s => bce_elt s zero) negatives))
    end in
  fl_div (fl_add pos_term neg_term) (fl_of_nat (length scores)).

(** Negatives are the examples with [label < 0.5]. *)
Definition Pointwise : fl -> list fl -> list fl -> fl :=
  Pointwise_with (fun l => fl_lt l half).

(** Negatives are the examples whose label is not [>= 0.5]. *)
Definition Pointwise_complement : fl -> list fl -> list fl -> fl :=
  Pointwise_with (fun l => negb (fl_ge l half)).

(** The mask of [fine] in closed form: the (true_diff, pred_diff) of the
    candidate pairs whose true difference survives, row by row of the two
    views. *)
Definition passing_pairs (cands : list (nat * nat)) (thr : fl)
    (y_pred y_true : list (list fl)) : list (fl * fl) :=
  flat_map (fun st =>
              map (fun ij => (diff (snd st) ij, diff (fst st) ij))
                  (filter (fun ij => survives thr (diff (snd st) ij)) cands))
           (combine y_pred y_true).

(** The ordered pairs of distinct positions. *)
Definition off_diagonal (n : nat) : list (nat * nat) :=
  filter (fun ij => negb (fst ij =? snd ij)) (product_range n).

(** The position of the first occurrence of the sentinel, 0 when there is
    none. *)
Fixpoint first_occurrence (id : Z) (row : list Z) : option nat :=
  match row with
  | [] => None
  | t :: row' =>
      if (t =? id)%Z then Some 0
      else match first_occurrence id row' with
           | Some i => Some (S i)
           | None => None
           end
  end.

Definition sentinel_position (id : Z) (row : list Z) : nat :=
  match first_occurrence id row with
  | Some i => i
  | None => 0
  end.

End Model.

(** A batch is well shaped for a weight row [w] when there are as many rows
    of hidden states as sequences, every sequence is non-empty and has one
    hidden vector per token, and every hidden vector has the length of [w]. *)
Definition well_shaped (w : list fl) (input_ids : list (list Z))
    (hidden : list (list (list fl))) : Prop :=
  Forall2 (fun row h =>
             row <> [] /\ length h = length row /\
             Forall (fun v => length v = length w) h)
          input_ids hidden.

(** ** Construction of the engine by keywords *)

Inductive pyarg : Type :=
| ArgBool (b : bool)
| ArgFloat (x : fl)
| ArgInt (z : Z).

(** The parameters of [LossForRank.__init__] and their defaults. *)
Definition LossForRank_parameters : list string :=
  ["is_warm_up"; "bias"; "psg_num"; "ignore_minor_diff"; "bce_bias"]%string.

(** A keyword value is stored as it is given.  Where the code reads it as a
    condition ([if is_warm_up:]) it counts by its truth value, where it
    multiplies or compares with it ([self.bias * ...], [self.bce_bias * ...],
    [true_diffs > self.ignore_minor_diff]) by its numeric value. *)
Definition truth (v : pyarg) : bool :=
  match v with
  | ArgBool b => b
  | ArgFloat (Fin x) => negb (Qc_eqb x 0)
  | ArgFloat _ => true
  | ArgInt z => negb (z =? 0)%Z
  end.

Definition number (v : pyarg) : fl :=
  match v with
  | ArgBool b => if b then one else zero
  | ArgFloat x => x
  | ArgInt z => fl_of_Z z
  end.

Definition bool_arg (name : string) (kwargs : list (string * pyarg)) (d : bool) :=
  match lookup name kwargs with Some v => truth v | None => d end.

Definition float_arg (name : string) (kwargs : list (string * pyarg)) (d : fl) :=
  match lookup name kwargs with Some v => number v | None => d end.

(** [psg_num] is a size: [view(-1, self.psg_num)] takes an int and refuses a
    bool or a float with a TypeError. *)
Definition int_arg (name : string) (kwargs : list (string * pyarg)) (d : Z)
  : result Z :=
  match lookup name kwargs with
  | Some (ArgInt z) => Ok z
  | Some _ => Err TypeError
  | None => Ok d
  end.

(** [LossForRank(k1=v1, ...)]: a keyword that is not a parameter is a
    TypeError.  The engine of the model holds [psg_num] as an int.  With a
    [psg_num] that is not one, the source builds the engine all the same,
    when [__init__] does not raise, and its [bi] and [fine], so every call of
    it, raise TypeError at their first [view]; the model has no such engine and
    reports that TypeError here, after [__init__]. *)
Definition LossForRank_new (kwargs : list (string * pyarg)) : result LossForRank :=
  if forallb (fun kv => existsb (String.eqb (fst kv)) LossForRank_parameters) kwargs
  then
    match int_arg "psg_num" kwargs 4 with
    | Ok n => LossForRank_init (bool_arg "is_warm_up" kwargs false)
                               (float_arg "bias" kwargs one)
                               n
                               (float_arg "ignore_minor_diff" kwargs zero)
                               (float_arg "bce_bias" kwargs half)
    | Err e => _ <- LossForRank_init (bool_arg "is_warm_up" kwargs false)
                                     (float_arg "bias" kwargs one)
                                     4
                                     (float_arg "ignore_minor_diff" kwargs zero)
                                     (float_arg "bce_bias" kwargs half) ;;
               Err e
    end
  else Err TypeError.

(** The engine as [LlamaForRear._additional_init] constructs it. *)
Definition additional_init_rel_eval_fn (is_warm_up : bool) (psg_num : Z)
    (bias ignore_mirror_diff bce_bias : fl) : result LossForRank :=
  LossForRank_new
    [("is_warm_up"%string, ArgBool is_warm_up);
     ("psg_num"%string, ArgInt psg_num);
     ("bias"%string, ArgFloat bias);
     ("ignore_mirror_diff"%string, ArgFloat ignore_mirror_diff);
     ("bce_bias"%string, ArgFloat bce_bias)].

(** ** Sample data for the examples *)

Definition fl_max (a b : fl) : fl := if fl_lt a b then b else a.

(** A rational stand-in for the elementwise loss
    [max(x,0) - x*y + log(1 + exp(-|x|))]: the logarithm, which is at most
    [log 2], is replaced by 1. *)
Definition bce_elt_upper (x y : fl) : fl :=
  fl_add (fl_sub (fl_max x zero) (fl_mul x y)) one.

Definition ratio (n : Z) (d : positive) : fl := Fin (Q2Qc (n # d)).

Definition loss_sample : LossForRank :=
  {| bias := one; psg_num := 2; ignore_minor_diff := zero;
     bce_bias := half; loss_fn := bi_method |}.

Definition hidden_of (input_ids : list (list Z)) : list (list (list fl)) :=
  map (map (fun t => [fl_of_Z t; one])) input_ids.

Definition backbone_sample (input_ids : list (list Z)) (return_dict : bool)
  : result backbone_out :=
  if return_dict
  then Ok (AsOutput {| class_of := BaseModelOutputWithPast;
                       fields := [("last_hidden_state"%string,
                                   PyHidden (hidden_of input_ids))] |})
  else Ok (AsTuple [PyHidden (hidden_of input_ids)]).

(** [x[:, :-1].view(-1, ...)] and [x[:, 1:].view(-1)] on a contiguous [x]
    of [rows] sequences of [cols] tokens: the slice shares the storage of
    [x], and [view] takes it only when there is at most one sequence or at
    most one token is left in each. *)
Definition sliced_view (rows cols : nat) : bool :=
  (rows <=? 1) || (cols <=? 2).

(** A stand-in for the three lines of the generation loss: they raise where
    one of the two [view]s is refused; the value where they return is a
    placeholder, and no property depends on it. *)
Definition shifted_ans_sample (logits : tensor) (labels : list (list Z))
  : result fl :=
  match shape logits with
  | [b; t; _] =>
      if sliced_view b t && sliced_view (length labels) (length (hd [] labels))
      then Ok (ratio 2 1)
      else Err RuntimeError
  | _ => Err IndexError
  end.

Definition lm_head_sample (h : list (list (list fl))) : tensor :=
  {| shape := [length h; length (hd [] h); 2]; data := concat (concat h) |}.

Definition rear_sample (beta : option fl) : LlamaForRear :=
  {| beta := beta; rel_token_id := 32001; irr_token_id := 32003;
     gen_score_id := 32002; rel_score := [one; half];
     rel_eval_fn := loss_sample; threshold := ratio 13 1;
     use_return_dict := true; model := backbone_sample;
     lm_head := lm_head_sample; lm_head_out_features := 2;
     shifted_ans_fn := shifted_ans_sample |}.

(** A backbone that returns its output object whatever [return_dict] is. *)
Definition rear_object_sample (beta : option fl) : LlamaForRear :=
  {| beta := beta; rel_token_id := 32001; irr_token_id := 32003;
     gen_score_id := 32002; rel_score := [one; half];
     rel_eval_fn := loss_sample; threshold := ratio 13 1;
     use_return_dict := true;
     model := fun input_ids _ => backbone_sample input_ids true;
     lm_head := lm_head_sample; lm_head_out_features := 2;
     shifted_ans_fn := shifted_ans_sample |}.

Definition ids_sample : list (list Z) := [[1; 32002; 5]; [3; 4; 32002]]%Z.

Definition scores_sample : list fl := [ratio 1 1; ratio 2 1; ratio 3 1; ratio 1 2].

Definition grades_sample : list fl := [one; zero; half; ratio 1 4].

(** An engine with groups of one candidate. *)
Definition loss_single : LossForRank :=
  {| bias := one; psg_num := 1; ignore_minor_diff := zero;
     bce_bias := half; loss_fn := bi_method |}.

(** An engine with groups of three candidates. *)
Definition loss_triple : LossForRank :=
  {| bias := one; psg_num := 3; ignore_minor_diff := zero;
     bce_bias := half; loss_fn := bi_method |}.

(** The output object of the sample backbone on the sample batch. *)
Definition outputs_sample : ModelOutput :=
  {| class_of := BaseModelOutputWithPast;
     fields := [("last_hidden_state"%string, PyHidden (hidden_of ids_sample))] |}.

(** * Properties *)

(** ** Tensor elements *)

Lemma fl_add_zero_l (x : fl) : fl_add zero x = x.
Proof.
  destruct x as [v| |]; simpl; trivial.
  now rewrite Qcplus_0_l.
Qed.

Lemma fl_add_zero_r (x : fl) : fl_add x zero = x.
Proof.
  destruct x as [v| |]; simpl; trivial.
  now rewrite Qcplus_0_r.
Qed.

Lemma Qc_ltb_irrefl (x : Qc) : Qc_ltb x x = false.
Proof.
  unfold Qc_ltb.
  destruct (x ?= x)%Qc eqn:E; trivial.
  apply Qclt_alt in E. now apply Qclt_not_eq in E.
Qed.

Lemma Qc_ltb_lt (x y : Qc) : Qc_ltb x y = true <-> (x < y)%Qc.
Proof.
  unfold Qc_ltb. rewrite Qclt_alt.
  destruct (x ?= y)%Qc; split; congruence.
Qed.

(** A comparison with NaN is false. *)
Lemma fl_gt_nan (thr : fl) : fl_gt NaN thr = false.
Proof. now destruct thr. Qed.

(** The code's mask and the specification's filter select the same
    differences: a difference that exceeds the threshold is not NaN. *)
Lemma mask_survives (thr d : fl) :
  fl_gt d thr && negb (isinf d) = survives thr d.
Proof.
  unfold survives. destruct d; simpl; trivial.
  rewrite fl_gt_nan. reflexivity.
Qed.

(** [x - x] is 0 for a finite [x] and NaN otherwise. *)
Lemma fl_sub_diag (x : fl) :
  fl_sub x x = if isfinite x then zero else NaN.
Proof.
  destruct x as [v|[|]|]; simpl; trivial.
  unfold fl_sub; simpl. now rewrite Qcplus_opp_r.
Qed.

(** No self-difference exceeds a threshold that is [>= 0]. *)
Lemma self_pair_masked (thr x : fl) :
  fl_ge thr zero = true -> fl_gt (fl_sub x x) thr = false.
Proof.
  intros Hthr. rewrite fl_sub_diag.
  destruct x as [v| |]; simpl; try apply fl_gt_nan.
  destruct thr as [t|[|]|]; simpl in *; try discriminate; trivial.
  unfold fl_ge, fl_le in Hthr. simpl in Hthr.
  unfold fl_gt; simpl.
  now apply negb_true_iff in Hthr.
Qed.

Lemma fl_le_not_gt (d thr : fl) : fl_le d thr = true -> fl_gt d thr = false.
Proof.
  unfold fl_le, fl_gt.
  destruct d, thr; try discriminate; intros H; now apply negb_true_iff in H.
Qed.

(** ** Lists *)

Lemma select_map {A B : Type} (f : B -> bool) (xs : list A) (ys : list B) :
  select xs (map f ys) = map fst (filter (fun p => f (snd p)) (combine xs ys)).
Proof.
  unfold select. revert ys.
  induction xs as [|x xs IH]; intros [|y ys]; simpl; trivial.
  destruct (f y); simpl; now rewrite IH.
Qed.

Lemma length_select_map {A B C : Type} (f : C -> bool)
    (xs : list A) (ys : list B) (zs : list C) :
  length xs = length zs -> length ys = length zs ->
  length (select xs (map f zs)) = length (select ys (map f zs)).
Proof.
  unfold select. revert ys zs.
  induction xs as [|x xs IH]; intros [|y ys] [|z zs]; simpl; trivial;
    try discriminate.
  intros Hx Hy. destruct (f z); simpl; auto.
Qed.

Section Properties.

Variable bce_elt : fl -> fl -> fl.

Lemma elementwise_constant (c : fl) (xs : list fl) :
  elementwise bce_elt xs (map (fun _ => c) xs) = map (fun s => bce_elt s c) xs.
Proof.
  unfold elementwise.
  induction xs as [|x xs IH]; simpl; trivial. now rewrite IH.
Qed.

Lemma bce_sum_constant (c : fl) (xs : list fl) :
  binary_cross_entropy_with_logits bce_elt xs (map (fun _ => c) xs) Sum
  = Ok (fl_sum (map (fun s => bce_elt s c) xs)).
Proof.
  unfold binary_cross_entropy_with_logits.
  rewrite length_map, Nat.eqb_refl, elementwise_constant. reflexivity.
Qed.

(** ** LossForRank *)

(** Without warm-up the constructor returns an engine whose call is [bi]. *)
Lemma LossForRank_init_full (bias : fl) (psg_num : Z) (thr bce_bias : fl) :
  LossForRank_init false bias psg_num thr bce_bias
  = Ok {| bias := bias; psg_num := psg_num; ignore_minor_diff := thr;
          bce_bias := bce_bias; loss_fn := bi_method |}.
Proof. reflexivity. Qed.

(** C1.  With [is_warm_up] true the constructor reads [self.bce], a name that
    [LossForRank] does not define, and raises AttributeError: no warm-up
    engine exists whose evaluation could return the pointwise term.  Without
    warm-up the engine is constructed and its evaluation is
    [0.5 * fine + bce_bias * coarse]. *)
Theorem LossForRank_warm_up_raises
    (bias : fl) (psg_num : Z) (thr bce_bias : fl) (scores labels : list fl) :
  LossForRank_init true bias psg_num thr bce_bias = Err AttributeError /\
  exists self,
    LossForRank_init false bias psg_num thr bce_bias = Ok self /\
    call bce_elt self scores labels
    = (f <- fine bce_elt self scores labels ;;
       c <- coarse bce_elt self scores labels ;;
       Ok (fl_add (fl_mul half f) (fl_mul bce_bias c))).
Proof.
  split; [reflexivity|].
  eexists. split; [apply LossForRank_init_full|]. reflexivity.
Qed.

(** The pointwise term of the code, for every batch of matching lengths. *)
Lemma coarse_complement (self : LossForRank) (scores labels : list fl) :
  length scores = length labels ->
  coarse bce_elt self scores labels
  = Ok (Pointwise_complement bce_elt (bias self) scores labels).
Proof.
  intros Hlen. apply Nat.eqb_eq in Hlen.
  unfold coarse, masked_select1.
  rewrite !length_map, Hlen. cbn [bind].
  rewrite map_map, !select_map.
  unfold Pointwise_complement, Pointwise_with, ones_like, zeros_like.
  set (pos := map fst (filter (fun p => fl_ge (snd p) half) (combine scores labels))).
  set (neg := map fst (filter (fun p => negb (fl_ge (snd p) half))
                              (combine scores labels))).
  rewrite !bce_sum_constant.
  destruct pos as [|p0 pos']; destruct neg as [|n0 neg']; cbn [length Nat.eqb bind].
  - now rewrite fl_add_zero_l.
  - reflexivity.
  - now rewrite fl_add_zero_l, fl_add_zero_r.
  - now rewrite fl_add_zero_l.
Qed.

(** *** The pairwise term *)

Lemma select_candidates {C : Type} (F G : C -> fl) (thr : fl) (cands : list C) :
  select (map F cands) (map (fun d => fl_gt d thr && negb (isinf d)) (map G cands))
  = map F (filter (fun c => survives thr (G c)) cands).
Proof.
  unfold select.
  induction cands as [|c cands IH]; simpl; trivial.
  rewrite mask_survives. destruct (survives thr (G c)); simpl; now rewrite IH.
Qed.

Lemma length_pair_diffs cands (y : list (list fl)) :
  length (pair_diffs cands y) = length y.
Proof. apply length_map. Qed.

Lemma length_the_mask_of thr (t : list (list fl)) :
  length (the_mask_of thr t) = length t.
Proof. apply length_map. Qed.

Lemma masked_pred cands thr (y_pred y_true : list (list fl)) :
  concat (map (fun rm => select (fst rm) (snd rm))
              (combine (pair_diffs cands y_pred)
                       (the_mask_of thr (pair_diffs cands y_true))))
  = map snd (passing_pairs cands thr y_pred y_true).
Proof.
  unfold pair_diffs, the_mask_of, passing_pairs. revert y_true.
  induction y_pred as [|s y_pred IH]; intros [|t y_true]; simpl; trivial.
  rewrite IH, map_app. f_equal.
  rewrite (select_candidates (diff s) (diff t)), map_map. reflexivity.
Qed.

Lemma masked_true cands thr (y_pred y_true : list (list fl)) :
  length y_pred = length y_true ->
  concat (map (fun rm => select (fst rm) (snd rm))
              (combine (pair_diffs cands y_true)
                       (the_mask_of thr (pair_diffs cands y_true))))
  = map fst (passing_pairs cands thr y_pred y_true).
Proof.
  unfold pair_diffs, the_mask_of, passing_pairs. revert y_true.
  induction y_pred as [|s y_pred IH]; intros [|t y_true]; simpl; trivial;
    try discriminate.
  intros Hlen. injection Hlen as Hlen.
  rewrite IH by assumption. rewrite map_app. f_equal.
  rewrite (select_candidates (diff t) (diff t)), map_map. reflexivity.
Qed.

Lemma elementwise_pairs (l : list (fl * fl)) :
  elementwise bce_elt (map snd l) (binarize (map fst l)) = map (pair_loss bce_elt) l.
Proof.
  induction l as [|tp l IH]; [reflexivity|].
  change (bce_elt (snd tp) (if fl_gt (fst tp) zero then one else zero)
          :: elementwise bce_elt (map snd l) (binarize (map fst l))
          = pair_loss bce_elt tp :: map (pair_loss bce_elt) l).
  now rewrite IH.
Qed.

(** [fine_on] written out: the two views, the shape test of the boolean
    index, and the mean over the pairs that pass. *)
Lemma fine_on_unfold cands (self : LossForRank) (scores labels : list fl) :
  fine_on bce_elt cands self scores labels
  = (y_pred <- view_rows (psg_num self) scores ;;
     y_true <- view_rows (psg_num self) labels ;;
     if length y_pred =? length y_true
     then Ok (average
                (map (pair_loss bce_elt)
                     (passing_pairs cands (ignore_minor_diff self) y_pred y_true)))
     else Err IndexError).
Proof.
  unfold fine_on.
  destruct (view_rows (psg_num self) scores) as [y_pred|e]; simpl; trivial.
  destruct (view_rows (psg_num self) labels) as [y_true|e]; simpl; trivial.
  unfold masked_select.
  rewrite !length_the_mask_of, !length_pair_diffs, Nat.eqb_refl.
  destruct (length y_pred =? length y_true) eqn:E.
  - apply Nat.eqb_eq in E. cbn [bind].
    rewrite masked_pred, (masked_true cands _ y_pred y_true E).
    unfold binary_cross_entropy_with_logits, binarize.
    rewrite !length_map, Nat.eqb_refl.
    fold (binarize (map fst (passing_pairs cands (ignore_minor_diff self) y_pred y_true))).
    rewrite elementwise_pairs. reflexivity.
  - reflexivity.
Qed.

Lemma filter_subsumed {A : Type} (f g : A -> bool) (l : list A) :
  (forall x, In x l -> f x = true -> g x = true) ->
  filter f (filter g l) = filter f l.
Proof.
  induction l as [|x l IH]; intros H; simpl; trivial.
  assert (IH' : filter f (filter g l) = filter f l)
    by (apply IH; intros y Hy; apply H; now right).
  destruct (g x) eqn:Eg; simpl.
  - now rewrite IH'.
  - destruct (f x) eqn:Ef; trivial.
    rewrite (H x (or_introl eq_refl) Ef) in Eg. discriminate.
Qed.

Lemma filter_none {A : Type} (f : A -> bool) (l : list A) :
  (forall x, In x l -> f x = false) -> filter f l = [].
Proof.
  induction l as [|x l IH]; intros H; simpl; trivial.
  rewrite (H x (or_introl eq_refl)). apply IH.
  intros y Hy. apply H. now right.
Qed.

Lemma filter_flat_map {A B : Type} (f : B -> bool) (h : A -> list B) (l : list A) :
  filter f (flat_map h l) = flat_map (fun x => filter f (h x)) l.
Proof.
  induction l as [|x l IH]; simpl; trivial.
  now rewrite filter_app, IH.
Qed.

Lemma flat_map_map {A B C : Type} (h : B -> list C) (f : A -> B) (l : list A) :
  flat_map h (map f l) = flat_map (fun x => h (f x)) l.
Proof.
  induction l as [|x l IH]; simpl; trivial. now rewrite IH.
Qed.

Lemma flat_map_ext_in {A B : Type} (f g : A -> list B) (l : list A) :
  (forall x, In x l -> f x = g x) -> flat_map f l = flat_map g l.
Proof.
  induction l as [|x l IH]; intros H; simpl; trivial.
  rewrite (H x (or_introl eq_refl)), IH; trivial.
  intros y Hy. apply H. now right.
Qed.

Lemma combine_map_both {A B C : Type} (f : A -> B) (g : A -> C) (l : list A) :
  combine (map f l) (map g l) = map (fun x => (f x, g x)) l.
Proof.
  induction l as [|x l IH]; simpl; trivial. now rewrite IH.
Qed.

(** Row [g] of the view is the slice [g*p, g*p + p). *)
Lemma chunks_seq (rows cols : nat) (xs : list fl) :
  chunks rows cols xs
  = map (fun g => firstn cols (skipn (g * cols) xs)) (seq 0 rows).
Proof.
  revert xs. induction rows as [|r IH]; intros xs; [reflexivity|].
  cbn [chunks seq map]. f_equal.
  rewrite IH, <- seq_shift, map_map.
  apply map_ext. intros g. rewrite skipn_skipn.
  do 2 f_equal. simpl. lia.
Qed.

Lemma nth_chunk (cols g i : nat) (xs : list fl) :
  i < cols ->
  nth i (firstn cols (skipn (g * cols) xs)) NaN = nth (g * cols + i) xs NaN.
Proof.
  intros Hi. rewrite nth_firstn.
  apply Nat.ltb_lt in Hi. rewrite Hi. apply nth_skipn.
Qed.

Lemma in_product_range (n : nat) (ij : nat * nat) :
  In ij (product_range n) -> fst ij < n /\ snd ij < n.
Proof.
  destruct ij as [i j]. unfold product_range.
  rewrite in_prod_iff, !in_seq. simpl. lia.
Qed.

(** The pairs that pass the mask of the code are the surviving pairs of the
    specification. *)
Lemma passing_batch (thr : fl) (p : nat) (scores labels : list fl) :
  length scores = length labels ->
  passing_pairs (product_range p) thr
                (chunks (length scores / p) p scores)
                (chunks (length labels / p) p labels)
  = filter (fun tp => survives thr (fst tp)) (batch_pairs p scores labels).
Proof.
  intros Hlen. unfold passing_pairs, batch_pairs.
  rewrite Hlen, !chunks_seq, combine_map_both, flat_map_map, filter_flat_map.
  apply flat_map_ext_in. intros g _. cbn [fst snd].
  unfold group_pairs. rewrite filter_map_swap. cbn [fst].
  assert (Hd : forall xs ij, In ij (product_range p) ->
             diff (firstn p (skipn (g * p) xs)) ij
             = fl_sub (nth (g * p + fst ij) xs NaN) (nth (g * p + snd ij) xs NaN)).
  { intros xs ij Hin. apply in_product_range in Hin as [Hi Hj].
    unfold diff. now rewrite !nth_chunk. }
  rewrite (filter_ext_in
             (fun ij => survives thr (diff (firstn p (skipn (g * p) labels)) ij))
             (fun ij => survives thr (fl_sub (nth (g * p + fst ij) labels NaN)
                                             (nth (g * p + snd ij) labels NaN)))).
  - apply map_ext_in. intros ij Hin. apply filter_In in Hin as [Hin _].
    now rewrite !Hd.
  - intros ij Hin. now rewrite Hd.
Qed.

Lemma view_rows_ok (cols : Z) (xs : list fl) :
  (0 < cols)%Z -> length xs mod Z.to_nat cols = 0 ->
  view_rows cols xs
  = Ok (chunks (length xs / Z.to_nat cols) (Z.to_nat cols) xs).
Proof.
  intros Hc Hm. unfold view_rows.
  destruct (cols <=? 0)%Z eqn:E; [apply Z.leb_le in E; lia|].
  now rewrite Hm.
Qed.

Lemma average_nil : average [] = NaN.
Proof. reflexivity. Qed.

(** C2.  On a batch whose length is a multiple of the group size, [fine] is
    the pairwise term of the specification: the mean, over the ordered pairs
    of each group (self-pairs included) whose true difference exceeds the
    threshold and is finite, of the elementwise loss of the predicted
    difference against the target [true_diff > 0]. *)
Theorem fine_Pairwise (self : LossForRank) (scores labels : list fl) :
  (0 < psg_num self)%Z ->
  length scores = length labels ->
  length labels mod Z.to_nat (psg_num self) = 0 ->
  fine bce_elt self scores labels
  = Ok (Pairwise bce_elt (ignore_minor_diff self)
                 (Z.to_nat (psg_num self)) scores labels).
Proof.
  intros Hp Hlen Hmod. unfold fine. rewrite fine_on_unfold.
  rewrite !view_rows_ok by (trivial; now rewrite Hlen).
  cbn [bind]. rewrite !chunks_seq, !length_map, !length_seq, Hlen, Nat.eqb_refl.
  rewrite <- !chunks_seq. rewrite <- Hlen at 1.
  rewrite passing_batch by assumption. reflexivity.
Qed.

(** C10.  With a threshold that is [>= 0] no self-pair passes the mask, and
    [fine] is the same computation over the ordered pairs of distinct
    positions. *)
Theorem fine_off_diagonal (self : LossForRank) (scores labels : list fl) :
  fl_ge (ignore_minor_diff self) zero = true ->
  (forall row i,
      fl_gt (diff row (i, i)) (ignore_minor_diff self)
      && negb (isinf (diff row (i, i))) = false) /\
  fine bce_elt self scores labels
  = fine_on bce_elt (off_diagonal (Z.to_nat (psg_num self))) self scores labels.
Proof.
  intros Hthr.
  assert (Hself : forall row i,
             fl_gt (diff row (i, i)) (ignore_minor_diff self) = false)
    by (intros row i; apply self_pair_masked, Hthr).
  split; [intros row i; now rewrite Hself|].
  unfold fine. rewrite !fine_on_unfold.
  destruct (view_rows (psg_num self) scores) as [y_pred|e]; trivial.
  destruct (view_rows (psg_num self) labels) as [y_true|e]; trivial.
  cbn [bind]. destruct (length y_pred =? length y_true); trivial.
  do 3 f_equal. unfold passing_pairs, off_diagonal.
  apply flat_map_ext. intros [s t]. cbn [fst snd]. f_equal.
  symmetry. apply filter_subsumed.
  intros [i j] _ Hs. cbn [fst snd].
  destruct (i =? j) eqn:E; trivial.
  apply Nat.eqb_eq in E. subst j.
  unfold survives in Hs. now rewrite Hself in Hs.
Qed.

(** C7.  When every intra-group true-label gap is at most the threshold, no
    pair survives, [fine] takes the mean of an empty tensor and returns NaN,
    and so does the whole evaluation [bi]; neither raises, and the pairwise
    term is not 0. *)
Theorem fine_all_filtered (self : LossForRank) (scores labels : list fl) :
  (0 < psg_num self)%Z ->
  length scores = length labels ->
  length labels mod Z.to_nat (psg_num self) = 0 ->
  Forall (fun tp => fl_le (fst tp) (ignore_minor_diff self) = true)
         (batch_pairs (Z.to_nat (psg_num self)) scores labels) ->
  fine bce_elt self scores labels = Ok NaN /\
  bi bce_elt self scores labels = Ok NaN.
Proof.
  intros Hp Hlen Hmod Hall.
  assert (Hfine : fine bce_elt self scores labels = Ok NaN).
  { unfold fine. rewrite fine_on_unfold.
    rewrite !view_rows_ok by (trivial; now rewrite Hlen).
    cbn [bind]. rewrite !chunks_seq, !length_map, !length_seq, Hlen, Nat.eqb_refl.
    rewrite <- !chunks_seq. rewrite <- Hlen at 1.
    rewrite passing_batch by assumption.
    rewrite filter_none; [reflexivity|].
    intros tp Hin.
    rewrite Forall_forall in Hall. apply Hall in Hin.
    unfold survives. now rewrite (fl_le_not_gt _ _ Hin). }
  split; trivial.
  unfold bi. rewrite Hfine, (coarse_complement self scores labels Hlen).
  reflexivity.
Qed.

(** C3.  On a batch of matching lengths whose labels are those of the data
    model, a grade or the infinite mark and so never NaN, [coarse] is the
    pointwise term as the specification words it: the positives are the
    examples with [label >= 0.5], the negatives those with [label < 0.5], each
    sum is left out when its subset is empty, and the total is divided by the
    batch size.  Nothing raises. *)
Theorem coarse_Pointwise (self : LossForRank) (scores labels : list fl) :
  length scores = length labels ->
  Forall (fun l => isnan l = false) labels ->
  coarse bce_elt self scores labels
  = Ok (Pointwise bce_elt (bias self) scores labels).
Proof.
  intros Hlen Hnan. rewrite coarse_complement by assumption. f_equal.
  unfold Pointwise, Pointwise_complement, Pointwise_with.
  rewrite (filter_ext_in (fun sl => negb (fl_ge (snd sl) half))
                         (fun sl => fl_lt (snd sl) half)); trivial.
  intros [s l] Hin. apply in_combine_r in Hin.
  rewrite Forall_forall in Hnan. apply Hnan in Hin. cbn [snd].
  unfold fl_ge, fl_le. destruct l as [v|[|]|]; try discriminate; simpl;
    now rewrite ?negb_involutive.
Qed.

End Properties.

(** ** LlamaForRear *)

Ltac bind_ok H :=
  match type of H with
  | bind ?e _ = Ok _ =>
      let E := fresh "E" in
      destruct e eqn:E; [cbn [bind] in H | discriminate H]
  end.

Section HeadProperties.

Variable bce_elt : fl -> fl -> fl.

(** What [ans] returns when it returns. *)
Lemma ans_returns (self : LlamaForRear) outputs labels o :
  ans self outputs labels = Ok o ->
  exists gl lg pkv hs att,
    o = {| class_of := CausalLMOutputWithPast;
           fields := [("loss"%string, PyFloat gl); ("logits"%string, PyTensor lg);
                      ("past_key_values"%string, pkv);
                      ("hidden_states"%string, hs);
                      ("attentions"%string, att)] |} /\
    (labels = None -> gl = zero).
Proof.
  unfold ans. intros H.
  do 5 bind_ok H. injection H as <-.
  do 5 eexists. split; [reflexivity|].
  intros ->. now injection E0 as <-.
Qed.

(** What [rel_eval] returns when it returns. *)
Lemma rel_eval_returns (self : LlamaForRear) input_ids outputs classes o :
  rel_eval bce_elt self input_ids outputs classes = Ok o ->
  exists loss lg rl pkv hs att,
    o = {| class_of := RearOutput;
           fields := [("loss"%string, loss); ("logits"%string, lg);
                      ("rel_scores"%string, PyTensor rl);
                      ("past_key_values"%string, pkv);
                      ("hidden_states"%string, hs);
                      ("attentions"%string, att)] |} /\
    match classes with
    | Some _ => exists l, loss = PyFloat l
    | None => loss = PyNone
    end.
Proof.
  unfold rel_eval. intros H.
  do 7 bind_ok H. injection H as <-.
  do 6 eexists. split; [reflexivity|].
  destruct classes as [c|].
  - bind_ok E1. injection E1 as <-. now eexists.
  - now injection E1 as <-.
Qed.

(** [linear] gives a two-dimensional tensor. *)
Lemma rel_logits_rank (self : LlamaForRear) input_ids hidden pl :
  rel_logits_of self input_ids hidden = Ok pl ->
  length (shape (snd pl)) = 2.
Proof.
  unfold rel_logits_of, linear. intros H.
  do 2 bind_ok H.
  destruct (forallb _ _); cbn [bind] in H; [|discriminate].
  now injection H as <-.
Qed.

(** The boolean index of [rel_eval] has two dimensions, the tuple of
    indices four, the tensor three. *)
Lemma override_logits_raises (self : LlamaForRear) hidden rel_position rel_logits :
  length (shape rel_logits) = 2 ->
  override_logits self hidden rel_position rel_logits = Err IndexError.
Proof.
  intros H. unfold override_logits, setitem.
  cbn [shape full count_specified_dimensions fold_right specified_dimensions length].
  now rewrite H.
Qed.

(** *** The relevance score *)

Lemma argmax_from_one (id : Z) (row : list Z) (best_i i : nat) :
  argmax_from best_i 1 i (eq_long id row) = best_i.
Proof.
  revert i. induction row as [|t row IH]; intros i; simpl; trivial.
  destruct (t =? id)%Z; simpl; apply IH.
Qed.

Lemma argmax_from_zero (id : Z) (row : list Z) (best_i i : nat) :
  argmax_from best_i 0 i (eq_long id row)
  = match first_occurrence id row with
    | Some k => i + k
    | None => best_i
    end.
Proof.
  revert i. induction row as [|t row IH]; intros i; simpl; trivial.
  destruct (t =? id)%Z; simpl.
  - rewrite argmax_from_one. lia.
  - rewrite IH. destruct (first_occurrence id row); lia.
Qed.

(** The argmax of the equality test is the first occurrence, or 0. *)
Lemma argmax_sentinel (id : Z) (row : list Z) :
  row <> [] -> argmax (eq_long id row) = Ok (sentinel_position id row).
Proof.
  destruct row as [|t row]; [congruence|]. intros _.
  unfold sentinel_position. simpl.
  destruct (t =? id)%Z.
  - now rewrite argmax_from_one.
  - rewrite argmax_from_zero. now destruct (first_occurrence id row).
Qed.

Lemma first_occurrence_lt (id : Z) (row : list Z) (k : nat) :
  first_occurrence id row = Some k -> k < length row.
Proof.
  revert k. induction row as [|t row IH]; intros k; simpl; [discriminate|].
  destruct (t =? id)%Z.
  - intros [= <-]. lia.
  - destruct (first_occurrence id row) as [j|]; [|discriminate].
    intros [= <-]. specialize (IH j eq_refl). lia.
Qed.

Lemma sentinel_position_lt (id : Z) (row : list Z) :
  row <> [] -> sentinel_position id row < length row.
Proof.
  intros Hne. unfold sentinel_position.
  destruct (first_occurrence id row) as [k|] eqn:E.
  - now apply first_occurrence_lt in E.
  - destruct row; [congruence|simpl; lia].
Qed.

(** Without the sentinel the position is 0. *)
Lemma sentinel_position_absent (id : Z) (row : list Z) :
  ~ In id row -> sentinel_position id row = 0.
Proof.
  unfold sentinel_position. intros Hn.
  destruct (first_occurrence id row) as [k|] eqn:E; trivial.
  exfalso. revert k E.
  induction row as [|t row IH]; intros k; simpl; [discriminate|].
  destruct (t =? id)%Z eqn:Et.
  - apply Z.eqb_eq in Et. elim Hn. now left.
  - destruct (first_occurrence id row) as [j|] eqn:Ej; [|discriminate].
    intros _. apply (IH (fun H => Hn (or_intror H)) j eq_refl).
Qed.

(** With the sentinel the position is that of its first occurrence. *)
Lemma sentinel_position_first (id : Z) (row : list Z) :
  In id row ->
  nth (sentinel_position id row) row 0%Z = id /\
  forall j, j < sentinel_position id row -> nth j row 0%Z <> id.
Proof.
  unfold sentinel_position.
  induction row as [|t row IH]; simpl; [tauto|]. intros Hin.
  destruct (t =? id)%Z eqn:Et.
  - apply Z.eqb_eq in Et. split; [assumption|]. intros j Hj. lia.
  - apply Z.eqb_neq in Et. destruct Hin as [Hin|Hin]; [congruence|].
    specialize (IH Hin).
    destruct (first_occurrence id row) as [k|] eqn:E.
    + destruct IH as [IH1 IH2]. split; [assumption|].
      intros [|j] Hj; [assumption|]. apply IH2. lia.
    + exfalso. clear IH. revert E.
      induction row as [|u row IH']; simpl; [tauto|].
      destruct (u =? id)%Z eqn:Eu; [discriminate|].
      apply Z.eqb_neq in Eu. destruct Hin as [Hin|Hin]; [congruence|].
      destruct (first_occurrence id row); [discriminate|]. auto.
Qed.

Lemma mapM_map {A B : Type} (f : A -> result B) (g : A -> B) (xs : list A) :
  (forall x, In x xs -> f x = Ok (g x)) -> mapM f xs = Ok (map g xs).
Proof.
  induction xs as [|x xs IH]; intros H; simpl; trivial.
  rewrite (H x (or_introl eq_refl)), IH; trivial.
  intros y Hy. apply H. now right.
Qed.

Lemma gather_from (pre hidden : list (list (list fl))) (pos : list nat) :
  Forall2 (fun p h => p < length h) pos hidden ->
  mapM (fun ij =>
          match nth_error (pre ++ hidden) (fst ij) with
          | Some seq =>
              match nth_error seq (snd ij) with
              | Some v => Ok v
              | None => Err IndexError
              end
          | None => Err IndexError
          end)
       (combine (seq (length pre) (length hidden)) pos)
  = Ok (map (fun ph => nth (fst ph) (snd ph) []) (combine pos hidden)).
Proof.
  intros H. revert pre.
  induction H as [|p h pos hidden Hp H IH]; intros pre; [reflexivity|].
  cbn [length seq combine mapM map fst snd].
  rewrite nth_error_app2, Nat.sub_diag by lia. cbn [nth_error].
  rewrite (nth_error_nth' h [] Hp). cbn [bind].
  specialize (IH (pre ++ [h])).
  rewrite <- app_assoc, length_app in IH. cbn [app length] in IH.
  rewrite Nat.add_1_r in IH. now rewrite IH.
Qed.

Lemma index_rows_gather (hidden : list (list (list fl))) (pos : list nat) :
  Forall2 (fun p h => p < length h) pos hidden ->
  index_rows hidden (seq 0 (length hidden)) pos
  = Ok (map (fun ph => nth (fst ph) (snd ph) []) (combine pos hidden)).
Proof.
  intros H. unfold index_rows, broadcast2.
  rewrite length_seq, <- (Forall2_length H), Nat.eqb_refl. cbn [bind].
  rewrite (Forall2_length H). apply (gather_from [] H).
Qed.

Lemma combine_map_l {A B C : Type} (f : A -> B) (xs : list A) (ys : list C) :
  combine (map f xs) ys = map (fun xy => (f (fst xy), snd xy)) (combine xs ys).
Proof.
  revert ys. induction xs as [|x xs IH]; intros [|y ys]; simpl; trivial.
  now rewrite IH.
Qed.

(** The scores of a well-shaped batch. *)
Lemma rel_logits_of_well_shaped (self : LlamaForRear) input_ids hidden :
  well_shaped (rel_score self) input_ids hidden ->
  rel_logits_of self input_ids hidden
  = Ok (map (sentinel_position (gen_score_id self)) input_ids,
        {| shape := [length hidden; 1];
           data := map (fun rh =>
                          dot (rel_score self)
                              (nth (sentinel_position (gen_score_id self) (fst rh))
                                   (snd rh) []))
                       (combine input_ids hidden) |}).
Proof.
  intros H. unfold rel_logits_of.
  set (pos := sentinel_position (gen_score_id self)).
  rewrite (mapM_map _ pos).
  2:{ assert (Hne : Forall (fun row => row <> []) input_ids)
        by (induction H as [|row h ids hs (Hne & _) H IH]; constructor; trivial).
      rewrite Forall_forall in Hne.
      intros row Hin. now apply argmax_sentinel, Hne. }
  cbn [bind].
  assert (Hpos : Forall2 (fun p h => p < length h) (map pos input_ids) hidden).
  { induction H as [|row h ids hs (Hne & Hl & _) H IH]; constructor; trivial.
    rewrite Hl. now apply sentinel_position_lt. }
  rewrite (index_rows_gather Hpos). cbn [bind].
  unfold linear.
  assert (Hw : forallb (fun h => length h =? length (rel_score self))
                       (map (fun ph => nth (fst ph) (snd ph) [])
                            (combine (map pos input_ids) hidden)) = true).
  { clear Hpos. induction H as [|row h ids hs (Hne & Hl & Hv) H IH]; trivial.
    cbn [map combine forallb fst snd]. rewrite IH, andb_true_r.
    apply Nat.eqb_eq. rewrite Forall_forall in Hv. apply Hv, nth_In.
    rewrite Hl. now apply sentinel_position_lt. }
  rewrite Hw. cbn [bind fst snd].
  rewrite !length_map, length_combine, length_map, (Forall2_length H), Nat.min_id.
  rewrite combine_map_l, !map_map. reflexivity.
Qed.

(** C6.  On a well-shaped batch the score of each sequence is the bias-free
    projection [dot rel_score] of the hidden vector at the position of the
    first occurrence of the sentinel; when the sentinel is absent the
    position is 0 and the computation does not raise.  These scores are the
    [rel_scores] of what [rel_eval] returns, and in combined mode [rel_eval]
    does return on the output object of the backbone. *)
Theorem rel_scores_at_sentinel (self : LlamaForRear) input_ids hidden :
  well_shaped (rel_score self) input_ids hidden ->
  let position := sentinel_position (gen_score_id self) in
  let scores :=
    {| shape := [length hidden; 1];
       data := map (fun rh => dot (rel_score self) (nth (position (fst rh)) (snd rh) []))
                   (combine input_ids hidden) |} in
  rel_logits_of self input_ids hidden = Ok (map position input_ids, scores) /\
  (forall row, In row input_ids ->
     (In (gen_score_id self) row ->
      nth (position row) row 0%Z = gen_score_id self /\
      forall j, j < position row -> nth j row 0%Z <> gen_score_id self) /\
     (~ In (gen_score_id self) row -> position row = 0)) /\
  (forall outputs classes o,
     first_item outputs = Ok hidden ->
     rel_eval bce_elt self input_ids outputs classes = Ok o ->
     field o "rel_scores" = PyTensor scores) /\
  (forall b o,
     beta self = Some b ->
     class_of o = BaseModelOutputWithPast ->
     first_item (AsOutput o) = Ok hidden ->
     exists r, rel_eval bce_elt self input_ids (AsOutput o) None = Ok r).
Proof.
  intros H position scores. split; [|split; [|split]].
  - now apply rel_logits_of_well_shaped.
  - intros row _. split.
    + apply sentinel_position_first.
    + apply sentinel_position_absent.
  - intros outputs classes o Hh Ho. unfold rel_eval in Ho.
    rewrite Hh in Ho. cbn [bind] in Ho.
    rewrite (rel_logits_of_well_shaped _ H) in Ho. cbn [bind fst snd] in Ho.
    do 5 bind_ok Ho. now injection Ho as <-.
  - intros b o Hb Hc Hh. unfold rel_eval.
    rewrite Hh. cbn [bind].
    rewrite (rel_logits_of_well_shaped _ H). cbn [bind fst snd].
    rewrite Hb. unfold getattr_outputs, getattr. rewrite Hc.
    cbn. eexists. reflexivity.
Qed.

(** *** The override logits *)

Lemma rel_eval_score_only (self : LlamaForRear) input_ids outputs classes o :
  beta self = None ->
  rel_eval bce_elt self input_ids outputs classes <> Ok o.
Proof.
  intros Hb H. unfold rel_eval in H.
  do 3 bind_ok H. rewrite Hb in H.
  rewrite (@override_logits_raises self a (fst a0) (snd a0)
             (@rel_logits_rank self input_ids a a0 E0)) in H.
  discriminate.
Qed.

(** C5.  With [beta] None [rel_eval] never returns: the boolean index
    [rel_logits > threshold] has the two dimensions of [rel_logits], so the
    assignment into the three-dimensional logits has four indices and raises
    IndexError, whatever the scores and the threshold.  No override tensor is
    produced. *)
Theorem rel_eval_override_raises (self : LlamaForRear) input_ids outputs classes :
  beta self = None ->
  (exists e, rel_eval bce_elt self input_ids outputs classes = Err e) /\
  (forall hidden pl,
     first_item outputs = Ok hidden ->
     rel_logits_of self input_ids hidden = Ok pl ->
     override_logits self hidden (fst pl) (snd pl) = Err IndexError /\
     rel_eval bce_elt self input_ids outputs None = Err IndexError).
Proof.
  intros Hb. split.
  - destruct (rel_eval bce_elt self input_ids outputs classes) as [o|e] eqn:E.
    + now apply rel_eval_score_only in E.
    + now exists e.
  - intros hidden pl Hh Hpl.
    assert (Ho := @override_logits_raises self hidden (fst pl) (snd pl)
                    (@rel_logits_rank self input_ids hidden pl Hpl)).
    split; trivial.
    unfold rel_eval. rewrite Hh. cbn [bind]. rewrite Hpl. cbn [bind].
    now rewrite Hb, Ho.
Qed.

(** *** forward *)

(** [RearOutput] declares no field [verify_scores]. *)
Lemma verify_scores_undeclared (o : ModelOutput) :
  class_of o = RearOutput -> getattr o "verify_scores" = Err AttributeError.
Proof. unfold getattr. now intros ->. Qed.

(** In combined mode a call that returns has [return_dict] false and returns
    the tuple of the summed loss, the generation logits and the rest of the
    backbone's output. *)
Lemma forward_combined_returns (self : LlamaForRear) input_ids labels classes
    return_dict b out :
  beta self = Some b ->
  forward bce_elt self input_ids labels classes return_dict = Ok out ->
  resolve_return_dict self return_dict = false /\
  exists outputs sft_output rank_output gl rl,
    model self input_ids false = Ok outputs /\
    ans self outputs labels = Ok sft_output /\
    rel_eval bce_elt self input_ids outputs classes = Ok rank_output /\
    field sft_output "loss" = PyFloat gl /\
    field rank_output "loss" = PyFloat rl /\
    out = ReturnsTuple (PyFloat (fl_add gl (fl_mul b rl))
                          :: field sft_output "logits" :: tl (items_of outputs)).
Proof.
  unfold forward. intros Hb H. rewrite Hb in H.
  destruct (model self input_ids (resolve_return_dict self return_dict))
    as [outputs|] eqn:Em; [cbn [bind] in H | discriminate].
  destruct (ans self outputs labels) as [sft|] eqn:Ea; [cbn [bind] in H | discriminate].
  destruct (rel_eval bce_elt self input_ids outputs classes) as [rank|] eqn:Er;
    [cbn [bind] in H | discriminate].
  destruct (ans_returns _ _ _ Ea) as (gl & lg & pkv & hs & att & -> & _).
  destruct (rel_eval_returns _ _ _ _ Er) as (loss & lg' & rl & pkv' & hs' & att' & -> & _).
  cbn in H.
  destruct loss as [|rl'| | |]; try discriminate. cbn in H.
  destruct (resolve_return_dict self return_dict); [discriminate|].
  cbn in H. injection H as <-.
  split; trivial.
  do 5 eexists. repeat split; try eassumption; reflexivity.
Qed.

(** C4.  In combined mode [forward] never returns an output object: with
    [return_dict] true every call raises, and a call that returns at all
    returns a tuple headed by [generation_loss + beta * relevance_loss] and
    the generation logits, followed by the backbone's remaining items, the
    relevance scores not among the components the method adds. *)
Theorem forward_combined_no_output (self : LlamaForRear) input_ids labels classes
    return_dict b :
  beta self = Some b ->
  (forall o, forward bce_elt self input_ids labels classes return_dict
             <> Ok (Returns o)) /\
  (resolve_return_dict self return_dict = true ->
   exists e, forward bce_elt self input_ids labels classes return_dict = Err e) /\
  (forall items,
     forward bce_elt self input_ids labels classes return_dict
     = Ok (ReturnsTuple items) ->
     exists outputs gl rl lg,
       model self input_ids false = Ok outputs /\
       items = PyFloat (fl_add gl (fl_mul b rl)) :: PyTensor lg
                       :: tl (items_of outputs)).
Proof.
  intros Hb. split; [|split].
  - intros o H.
    destruct (forward_combined_returns _ _ _ _ _ Hb H)
      as (_ & ? & ? & ? & ? & ? & _ & _ & _ & _ & _ & Hout).
    discriminate.
  - intros Hrd.
    destruct (forward bce_elt self input_ids labels classes return_dict)
      as [out|e] eqn:E; [|now exists e].
    destruct (forward_combined_returns _ _ _ _ _ Hb E) as (Hrd' & _). congruence.
  - intros items H.
    destruct (forward_combined_returns _ _ _ _ _ Hb H)
      as (_ & outputs & sft & rank & gl & rl & Hm & Ha & _ & _ & _ & Hout).
    destruct (ans_returns _ _ _ Ha) as (gl' & lg & pkv & hs & att & -> & _).
    injection Hout as ->. now exists outputs, gl, rl, lg.
Qed.

(** C9.  In combined mode with [return_dict] true no call returns.  A call
    whose two sub-results are computed raises AttributeError, at the read of
    [rank_output.verify_scores], when relevance labels are supplied, and
    TypeError, at [beta * None], when they are not. *)
Theorem forward_combined_return_dict (self : LlamaForRear) input_ids labels classes
    return_dict b :
  beta self = Some b ->
  resolve_return_dict self return_dict = true ->
  (exists e, forward bce_elt self input_ids labels classes return_dict = Err e) /\
  (forall outputs sft_output rank_output,
     model self input_ids true = Ok outputs ->
     ans self outputs labels = Ok sft_output ->
     rel_eval bce_elt self input_ids outputs classes = Ok rank_output ->
     getattr rank_output "verify_scores" = Err AttributeError /\
     forward bce_elt self input_ids labels classes return_dict
     = Err (match classes with
            | Some _ => AttributeError
            | None => TypeError
            end)).
Proof.
  intros Hb Hrd. split.
  - destruct (forward bce_elt self input_ids labels classes return_dict)
      as [out|e] eqn:E; [|now exists e].
    destruct (forward_combined_returns _ _ _ _ _ Hb E) as (Hrd' & _). congruence.
  - intros outputs sft rank Hm Ha Hr.
    unfold forward. rewrite Hb, Hrd, Hm. cbn [bind]. rewrite Ha, Hr. cbn [bind].
    destruct (ans_returns _ _ _ Ha) as (gl & lg & pkv & hs & att & -> & _).
    destruct (rel_eval_returns _ _ _ _ Hr)
      as (loss & lg' & rl & pkv' & hs' & att' & -> & Hloss).
    split; [reflexivity|].
    destruct classes as [c|].
    + destruct Hloss as (l & ->). reflexivity.
    + subst loss. reflexivity.
Qed.

(** C8.  Without labels the generation sub-result has the loss 0, not None:
    [ans] starts from the constant tensor 0 and replaces it only when labels
    are given, and this is what [forward] returns when [beta] is None and
    the first sequence holds the relevant or the irrelevant token.  The loss
    that [rel_eval] puts in its result is None exactly when it is given no
    relevance labels. *)
Theorem loss_without_labels (self : LlamaForRear) input_ids classes :
  (forall outputs o,
     ans self outputs None = Ok o -> field o "loss" = PyFloat zero) /\
  (forall return_dict first rest o,
     beta self = None ->
     input_ids = first :: rest ->
     contains (rel_token_id self) first || contains (irr_token_id self) first = true ->
     forward bce_elt self input_ids None classes return_dict = Ok (Returns o) ->
     field o "loss" = PyFloat zero) /\
  (forall outputs o,
     rel_eval bce_elt self input_ids outputs classes = Ok o ->
     (field o "loss" = PyNone <-> classes = None)).
Proof.
  assert (Hans : forall outputs o,
             ans self outputs None = Ok o -> field o "loss" = PyFloat zero).
  { intros outputs o H.
    destruct (ans_returns _ _ _ H) as (gl & lg & pkv & hs & att & -> & Hgl).
    now rewrite (Hgl eq_refl). }
  split; [|split]; trivial.
  - intros return_dict first rest o Hb Hids Hc H.
    unfold forward in H. rewrite Hb, Hids in H. bind_ok H. cbn [bind] in H.
    rewrite Hc in H. bind_ok H. injection H as ->. eauto.
  - intros outputs o H.
    destruct (rel_eval_returns _ _ _ _ H)
      as (loss & lg & rl & pkv & hs & att & -> & Hloss).
    change (loss = PyNone <-> classes = None).
    destruct classes as [c|].
    + destruct Hloss as (l & ->). split; discriminate.
    + now subst loss.
Qed.

End HeadProperties.

(** The engine cannot be constructed the way [_additional_init] does it: the
    keyword [ignore_mirror_diff] is not a parameter of
    [LossForRank.__init__]. *)
Lemma additional_init_raises (is_warm_up : bool) (psg_num : Z)
    (bias ignore_mirror_diff bce_bias : fl) :
  additional_init_rel_eval_fn is_warm_up psg_num bias ignore_mirror_diff bce_bias
  = Err TypeError.
Proof. reflexivity. Qed.

(** ** Indexed assignment at sample inputs *)

(** A one-dimensional mask, an index vector and an int together index
    three dimensions: the selected entries are assigned. *)
Example setitem_mask_1d :
  data <$> setitem (full [2; 2; 2] zero)
                   [IdxBool [2] [true; false]; IdxLong [1]%Z; IdxInt 1] one
  = Ok [zero; zero; zero; one; zero; zero; zero; zero].
Proof. reflexivity. Qed.

(** With the mask reshaped to (2, 1) the same tuple indexes four. *)
Example setitem_mask_2d :
  setitem (full [2; 2; 2] zero)
          [IdxBool [2; 1] [true; false]; IdxLong [1]%Z; IdxInt 1] one
  = Err IndexError.
Proof. reflexivity. Qed.

(** A scoring call of [forward] with [beta] None. *)
Example forward_score_only :
  forward bce_elt_upper (rear_sample None) ids_sample None None None
  = Err IndexError.
Proof. reflexivity. Qed.

(** ** The theorems at sample inputs *)

Lemma fine_Pairwise_witness :
  fine bce_elt_upper loss_sample scores_sample grades_sample
  = Ok (Pairwise bce_elt_upper zero 2 scores_sample grades_sample).
Proof.
  apply (fine_Pairwise bce_elt_upper loss_sample); reflexivity.
Defined.

Lemma coarse_Pointwise_witness :
  coarse bce_elt_upper loss_sample scores_sample [one; zero; half; Inf true]
  = Ok (Pointwise bce_elt_upper one scores_sample [one; zero; half; Inf true]).
Proof.
  apply (@coarse_Pointwise bce_elt_upper loss_sample scores_sample
           [one; zero; half; Inf true]);
    [reflexivity | repeat constructor].
Defined.

Lemma fine_all_filtered_witness :
  fine bce_elt_upper loss_sample [ratio 1 1; ratio 2 1] [one; one] = Ok NaN /\
  bi bce_elt_upper loss_sample [ratio 1 1; ratio 2 1] [one; one] = Ok NaN.
Proof.
  apply (fine_all_filtered bce_elt_upper loss_sample); try reflexivity.
  vm_compute. repeat constructor.
Defined.

Lemma fine_off_diagonal_witness :
  fl_ge (ignore_minor_diff loss_sample) zero = true /\
  fine bce_elt_upper loss_sample scores_sample grades_sample
  = fine_on bce_elt_upper (off_diagonal 2) loss_sample scores_sample grades_sample.
Proof.
  split; [reflexivity|].
  apply (fine_off_diagonal bce_elt_upper loss_sample scores_sample grades_sample).
  reflexivity.
Defined.

Lemma ids_sample_well_shaped :
  well_shaped (rel_score (rear_sample (Some half))) ids_sample (hidden_of ids_sample).
Proof.
  unfold well_shaped. repeat first [constructor | discriminate].
Defined.

Lemma rel_scores_at_sentinel_witness :
  rel_logits_of (rear_sample (Some half)) ids_sample (hidden_of ids_sample)
  = Ok ([1; 2],
        {| shape := [2; 1];
           data := [dot [one; half] [fl_of_Z 32002; one];
                    dot [one; half] [fl_of_Z 32002; one]] |}).
Proof.
  apply (rel_scores_at_sentinel bce_elt_upper (rear_sample (Some half))
           ids_sample_well_shaped).
Defined.

Lemma rel_eval_override_raises_witness :
  beta (rear_sample None) = None /\
  rel_eval bce_elt_upper (rear_sample None) ids_sample
           (AsOutput {| class_of := BaseModelOutputWithPast;
                        fields := [("last_hidden_state"%string,
                                    PyHidden (hidden_of ids_sample))] |})
           None
  = Err IndexError.
Proof.
  split; [reflexivity|].
  eapply (proj2 (rel_eval_override_raises bce_elt_upper (rear_sample None) ids_sample
                   _ None eq_refl));
    reflexivity.
Defined.

Lemma forward_combined_no_output_witness :
  (beta (rear_sample (Some half)) = Some half /\
   resolve_return_dict (rear_sample (Some half)) None = true /\
   exists e,
     forward bce_elt_upper (rear_sample (Some half)) ids_sample
             None (Some [one; zero]) None = Err e) /\
  (forall o,
     forward bce_elt_upper (rear_object_sample (Some half)) ids_sample
             None (Some [one; zero]) (Some false)
     <> Ok (Returns o)).
Proof.
  split; [split; [reflexivity | split; [reflexivity|]]|].
  - apply (proj1 (proj2 (forward_combined_no_output bce_elt_upper
                           (rear_sample (Some half)) ids_sample None
                           (Some [one; zero]) None (b := half) eq_refl))).
    reflexivity.
  - apply (proj1 (forward_combined_no_output bce_elt_upper
                    (rear_object_sample (Some half)) ids_sample None
                    (Some [one; zero]) (Some false) (b := half) eq_refl)).
Defined.

(** With an output object from the backbone and [return_dict] false the
    call returns the tuple of the loss [0 + 0.5 * rank_loss] and the
    generation logits. *)
Example forward_combined_tuple :
  exists loss logits,
    forward bce_elt_upper (rear_object_sample (Some half)) ids_sample
            None (Some [one; zero]) (Some false)
    = Ok (ReturnsTuple [PyFloat loss; PyTensor logits]).
Proof. do 2 eexists. vm_compute. reflexivity. Qed.

Lemma forward_combined_return_dict_witness :
  forward bce_elt_upper (rear_sample (Some half)) ids_sample
          None (Some [one; zero]) None
  = Err AttributeError.
Proof.
  eapply (proj2 (forward_combined_return_dict bce_elt_upper
                   (rear_sample (Some half)) ids_sample None
                   (Some [one; zero]) None (b := half) eq_refl eq_refl));
    reflexivity.
Defined.

(** Without relevance labels the call fails earlier, at [beta * None]. *)
Lemma forward_combined_without_classes :
  forward bce_elt_upper (rear_sample (Some half)) ids_sample
          None None (Some true)
  = Err TypeError /\
  forward bce_elt_upper (rear_sample (Some half)) ids_sample
          None None (Some true)
  <> Err AttributeError.
Proof. split; vm_compute; [reflexivity | discriminate]. Qed.

Lemma loss_without_labels_witness :
  exists o,
    forward bce_elt_upper (rear_sample None) [[1; 32001; 5]%Z] None None None
    = Ok (Returns o) /\
    field o "loss" = PyFloat zero.
Proof.
  eexists. split; [reflexivity|].
  apply (proj1 (proj2 (loss_without_labels bce_elt_upper (rear_sample None)
                         [[1; 32001; 5]%Z] None))
           None [1; 32001; 5]%Z [] _ eq_refl eq_refl eq_refl).
  reflexivity.
Defined.

(** A generation call without labels returns the loss 0, not None. *)
Lemma forward_without_labels_loss :
  match forward bce_elt_upper (rear_sample None) [[1; 32001; 5]%Z] None None None with
  | Ok (Returns o) => getattr o "loss" = Ok (PyFloat zero) /\ field o "loss" <> PyNone
  | _ => False
  end.
Proof. vm_compute. split; [reflexivity | discriminate]. Qed.

(** * Further properties of the engine *)

(** ** The mask of [fine] *)

Lemma fl_gt_above_zero (thr d : fl) :
  fl_ge thr zero = true -> fl_gt d thr = true -> fl_gt d zero = true.
Proof.
  unfold fl_ge, fl_le, fl_gt.
  destruct thr as [t|[|]|]; destruct d as [v|[|]|]; simpl; try discriminate; trivial.
  intros Ht Hv. apply negb_true_iff in Ht.
  apply Qc_ltb_lt in Hv. apply Qc_ltb_lt.
  apply Qcle_lt_trans with t; trivial.
  apply Qcnot_lt_le. intros H. apply Qc_ltb_lt in H. congruence.
Qed.

Lemma Qc_swap_sub (x y : Qc) : (y + - x = - (x + - y))%Qc.
Proof. ring. Qed.

(** A difference that passes the mask is a difference of two finite
    labels. *)
Lemma passes_finite (thr a b : fl) :
  fl_gt (fl_sub a b) thr && negb (isinf (fl_sub a b)) = true ->
  exists x y, a = Fin x /\ b = Fin y.
Proof.
  destruct a as [x|[|]|], b as [y|[|]|]; simpl;
    rewrite ?fl_gt_nan; try discriminate; try (rewrite andb_false_r; discriminate).
  intros _. now exists x, y.
Qed.

Section EngineProperties.

Variable bce_elt : fl -> fl -> fl.

(** X1.  With a threshold that is [>= 0], of the two orders of a pair of
    positions at most one passes the mask of [fine]: no unordered pair is
    counted twice. *)
Theorem mask_one_order (thr : fl) (row : list fl) (i j : nat) :
  fl_ge thr zero = true ->
  fl_gt (diff row (i, j)) thr && negb (isinf (diff row (i, j))) = true ->
  fl_gt (diff row (j, i)) thr && negb (isinf (diff row (j, i))) = false.
Proof.
  intros Hthr H. unfold diff in *. cbn [fst snd] in *.
  destruct (passes_finite _ _ _ H) as (x & y & Hx & Hy).
  rewrite Hx, Hy in *. clear Hx Hy.
  apply andb_prop in H as [H _].
  assert (H0 := fl_gt_above_zero _ _ Hthr H).
  unfold fl_sub, fl_gt in *. simpl in *.
  rewrite andb_true_r.
  destruct thr as [t|[|]|]; simpl in *; try discriminate.
  apply Qc_ltb_lt in H0.
  destruct (Qc_ltb t (y + - x)) eqn:E; trivial.
  apply Qc_ltb_lt in E. exfalso.
  unfold fl_ge, fl_le in Hthr. simpl in Hthr. apply negb_true_iff in Hthr.
  assert (Ht : (0 <= t)%Qc).
  { apply Qcnot_lt_le. intros Hn. apply Qc_ltb_lt in Hn. congruence. }
  rewrite Qc_swap_sub in E.
  assert (Hv : (- (x + - y) <= - 0)%Qc) by now apply Qcopp_le_compat, Qclt_le_weak.
  assert (Hz : (- 0 = 0)%Qc) by ring. rewrite Hz in Hv.
  apply (Qcle_not_lt _ _ (Qcle_trans _ _ _ Hv Ht) E).
Qed.

(** A pair with an infinite label at either position never passes the
    mask, whatever the threshold. *)
Lemma mask_excludes_infinite (thr : fl) (row : list fl) (i j : nat) :
  isinf (nth i row NaN) = true \/ isinf (nth j row NaN) = true ->
  fl_gt (diff row (i, j)) thr && negb (isinf (diff row (i, j))) = false.
Proof.
  intros H. unfold diff. cbn [fst snd].
  destruct (fl_gt (fl_sub (nth i row NaN) (nth j row NaN)) thr
            && negb (isinf (fl_sub (nth i row NaN) (nth j row NaN)))) eqn:E; trivial.
  destruct (passes_finite _ _ _ E) as (x & y & Hx & Hy).
  rewrite Hx, Hy in H. simpl in H. destruct H; discriminate.
Qed.

Lemma length_chunks (rows cols : nat) (xs : list fl) :
  length (chunks rows cols xs) = rows.
Proof. now rewrite chunks_seq, length_map, length_seq. Qed.

(** The value of [fine] on a batch whose length is a multiple of the group
    size. *)
Lemma fine_surviving (self : LossForRank) (scores labels : list fl) :
  (0 < psg_num self)%Z ->
  length scores = length labels ->
  length labels mod Z.to_nat (psg_num self) = 0 ->
  fine bce_elt self scores labels
  = Ok (average
          (map (pair_loss bce_elt)
               (filter (fun tp => survives (ignore_minor_diff self) (fst tp))
                       (batch_pairs (Z.to_nat (psg_num self)) scores labels)))).
Proof.
  intros Hp Hlen Hmod. unfold fine. rewrite fine_on_unfold.
  rewrite !view_rows_ok by (trivial; now rewrite Hlen).
  cbn [bind]. rewrite !length_chunks, Hlen, Nat.eqb_refl.
  rewrite <- Hlen at 1. now rewrite passing_batch.
Qed.

Lemma divisible_lengths (p a b : nat) :
  a mod p = 0 -> b mod p = 0 -> a / p = b / p -> a = b.
Proof.
  intros Ha Hb Hq.
  rewrite (Nat.div_mod_eq a p), (Nat.div_mod_eq b p), Ha, Hb, Hq. reflexivity.
Qed.

(** X2.  When [fine] raises and when it returns: a group size that is not
    positive, or a length of the scores or of the labels that is not a
    multiple of it, is a RuntimeError of [view]; two lengths that are
    multiples but differ are an IndexError of the boolean index; in every
    other case [fine] returns. *)
Theorem fine_raises (self : LossForRank) (scores labels : list fl) :
  let p := Z.to_nat (psg_num self) in
  ((psg_num self <= 0)%Z \/ length scores mod p <> 0 \/ length labels mod p <> 0 ->
   fine bce_elt self scores labels = Err RuntimeError) /\
  ((0 < psg_num self)%Z -> length scores mod p = 0 -> length labels mod p = 0 ->
   length scores <> length labels ->
   fine bce_elt self scores labels = Err IndexError) /\
  ((0 < psg_num self)%Z -> length labels mod p = 0 ->
   length scores = length labels ->
   exists v, fine bce_elt self scores labels = Ok v).
Proof.
  intros p. split; [|split].
  - intros H. unfold fine, fine_on, view_rows. fold p.
    destruct (psg_num self <=? 0)%Z eqn:E; trivial.
    apply Z.leb_gt in E.
    destruct H as [H|[H|H]]; [lia| |].
    + apply Nat.eqb_neq in H. now rewrite H.
    + apply Nat.eqb_neq in H. rewrite H.
      now destruct (length scores mod p =? 0).
  - intros Hp Hs Hl Hne. unfold fine. rewrite fine_on_unfold.
    rewrite !view_rows_ok by trivial. cbn [bind]. rewrite !length_chunks.
    fold p. destruct (length scores / p =? length labels / p) eqn:E; trivial.
    apply Nat.eqb_eq in E. elim Hne. now apply (divisible_lengths p).
  - intros Hp Hl Hlen. eexists. now apply fine_surviving.
Qed.

(** X3.  [coarse] returns exactly on scores and labels of the same length,
    whatever the group size; lengths that differ are an IndexError of the
    boolean index. *)
Theorem coarse_raises (self : LossForRank) (scores labels : list fl) :
  (length scores = length labels ->
   exists v, coarse bce_elt self scores labels = Ok v) /\
  (length scores <> length labels ->
   coarse bce_elt self scores labels = Err IndexError).
Proof.
  split.
  - intros H. eexists. now apply coarse_complement.
  - intros H. unfold coarse, masked_select1. rewrite length_map.
    apply Nat.eqb_neq in H. now rewrite H.
Qed.

Lemma bi_value (self : LossForRank) (scores labels : list fl) :
  length scores = length labels ->
  (0 < psg_num self)%Z ->
  length labels mod Z.to_nat (psg_num self) = 0 ->
  bi bce_elt self scores labels
  = Ok (fl_add
          (fl_mul half (Pairwise bce_elt (ignore_minor_diff self)
                                 (Z.to_nat (psg_num self)) scores labels))
          (fl_mul (bce_bias self)
                  (Pointwise_complement bce_elt (bias self) scores labels))).
Proof.
  intros Hlen Hp Hmod. unfold bi.
  rewrite fine_surviving, coarse_complement by assumption. reflexivity.
Qed.

Lemma bi_not_multiple (self : LossForRank) (scores labels : list fl) :
  length scores mod Z.to_nat (psg_num self) <> 0 ->
  bi bce_elt self scores labels = Err RuntimeError.
Proof.
  intros Hmod. unfold bi, fine, fine_on, view_rows.
  destruct (psg_num self <=? 0)%Z; trivial.
  apply Nat.eqb_neq in Hmod. now rewrite Hmod.
Qed.

(** X4.  [bi] puts the two terms together: on a batch whose length is a
    multiple of the group size it returns
    [0.5 * Pairwise + bce_bias * Pointwise]; on a batch of matching lengths
    that is not such a multiple it raises the RuntimeError of [fine], although
    [coarse] alone returns on it. *)
Theorem bi_terms (self : LossForRank) (scores labels : list fl) :
  length scores = length labels ->
  (0 < psg_num self)%Z ->
  let p := Z.to_nat (psg_num self) in
  (length labels mod p = 0 ->
   bi bce_elt self scores labels
   = Ok (fl_add
           (fl_mul half (Pairwise bce_elt (ignore_minor_diff self) p scores labels))
           (fl_mul (bce_bias self)
                   (Pointwise_complement bce_elt (bias self) scores labels)))) /\
  (length labels mod p <> 0 ->
   bi bce_elt self scores labels = Err RuntimeError /\
   exists v, coarse bce_elt self scores labels = Ok v).
Proof.
  intros Hlen Hp p. split.
  - intros Hmod. now apply bi_value.
  - intros Hmod. split.
    + apply bi_not_multiple. now rewrite Hlen.
    + eexists. now apply coarse_complement.
Qed.

(** X5.  With a threshold that is [>= 0] every pair that survives has a
    positive true difference, so every target of the cross entropy is 1:
    [fine] is the mean of the loss of the surviving predicted differences
    against the target 1. *)
Theorem fine_targets_one (self : LossForRank) (scores labels : list fl) :
  fl_ge (ignore_minor_diff self) zero = true ->
  (0 < psg_num self)%Z ->
  length scores = length labels ->
  length labels mod Z.to_nat (psg_num self) = 0 ->
  fine bce_elt self scores labels
  = Ok (average
          (map (fun tp => bce_elt (snd tp) one)
               (filter (fun tp => survives (ignore_minor_diff self) (fst tp))
                       (batch_pairs (Z.to_nat (psg_num self)) scores labels)))).
Proof.
  intros Hthr Hp Hlen Hmod. rewrite fine_surviving by assumption.
  do 2 f_equal. apply map_ext_in. intros tp Hin.
  apply filter_In in Hin as [_ Hs]. unfold survives in Hs.
  apply andb_prop in Hs as [Hs _]. unfold pair_loss.
  now rewrite (fl_gt_above_zero _ _ Hthr Hs).
Qed.

Lemma filter_map_agree {A B : Type} (f : B -> bool) (h1 h2 : A -> B) (l : list A) :
  (forall x, In x l -> f (h1 x) = true \/ f (h2 x) = true -> h1 x = h2 x) ->
  filter f (map h1 l) = filter f (map h2 l).
Proof.
  induction l as [|x l IH]; intros H; simpl; trivial.
  assert (IH' : filter f (map h1 l) = filter f (map h2 l))
    by (apply IH; intros y Hy; apply H; now right).
  destruct (f (h1 x)) eqn:E1.
  - rewrite <- (H x (or_introl eq_refl) (or_introl E1)), E1. now rewrite IH'.
  - destruct (f (h2 x)) eqn:E2; trivial.
    rewrite (H x (or_introl eq_refl) (or_intror E2)) in E1. congruence.
Qed.

Lemma survives_finite (thr a b : fl) :
  survives thr (fl_sub a b) = true -> isinf a = false /\ isinf b = false.
Proof.
  rewrite <- mask_survives. intros H.
  destruct (passes_finite _ _ _ H) as (x & y & -> & ->). now split.
Qed.

(** X6.  The score of an example whose label is infinite (the mark of an
    example without signal) has no part in [fine]: two batches of scores that
    agree wherever the label is not infinite give the same result. *)
Theorem fine_ignores_unlabelled (self : LossForRank) (scores scores' labels : list fl) :
  (0 < psg_num self)%Z ->
  length scores = length labels ->
  length scores' = length labels ->
  length labels mod Z.to_nat (psg_num self) = 0 ->
  (forall k, isinf (nth k labels NaN) = false ->
             nth k scores NaN = nth k scores' NaN) ->
  fine bce_elt self scores labels = fine bce_elt self scores' labels.
Proof.
  intros Hp Hl Hl' Hmod Hagree.
  rewrite !fine_surviving by assumption. do 3 f_equal.
  unfold batch_pairs. rewrite !filter_flat_map.
  apply flat_map_ext. intros g. unfold group_pairs.
  apply filter_map_agree. intros ij _ Hs. cbn [fst] in Hs.
  assert (Hf : survives (ignore_minor_diff self)
                 (fl_sub (nth (g * Z.to_nat (psg_num self) + fst ij) labels NaN)
                         (nth (g * Z.to_nat (psg_num self) + snd ij) labels NaN))
               = true) by (destruct Hs; assumption).
  apply survives_finite in Hf as [Hi Hj].
  now rewrite (Hagree _ Hi), (Hagree _ Hj).
Qed.

Lemma flat_map_nil {A B : Type} (f : A -> list B) (l : list A) :
  (forall x, In x l -> f x = []) -> flat_map f l = [].
Proof.
  induction l as [|x l IH]; intros H; simpl; trivial.
  rewrite (H x (or_introl eq_refl)), IH; trivial.
  intros y Hy. apply H. now right.
Qed.

(** X7.  With groups of one candidate and a threshold that is [>= 0] there is
    only the self-pair, which never survives: [fine] and [bi] return NaN on
    every batch of matching lengths. *)
Theorem fine_single_candidate (self : LossForRank) (scores labels : list fl) :
  psg_num self = 1%Z ->
  fl_ge (ignore_minor_diff self) zero = true ->
  length scores = length labels ->
  fine bce_elt self scores labels = Ok NaN /\
  bi bce_elt self scores labels = Ok NaN.
Proof.
  intros H1 Hthr Hlen.
  assert (Hfine : fine bce_elt self scores labels = Ok NaN).
  { unfold fine. rewrite fine_on_unfold, H1.
    rewrite !view_rows_ok by (try reflexivity; apply Nat.mod_1_r).
    cbn [bind]. rewrite !length_chunks, Hlen, Nat.eqb_refl.
    unfold passing_pairs. rewrite flat_map_nil; [reflexivity|].
    intros [s t] _. cbn [fst snd].
    change (product_range (Z.to_nat 1)) with [(0, 0)].
    cbn [filter]. unfold survives, diff. cbn [fst snd].
    now rewrite self_pair_masked. }
  split; trivial.
  unfold bi. rewrite Hfine, (coarse_complement bce_elt self scores labels Hlen).
  reflexivity.
Qed.

Lemma filter_all {A : Type} (f : A -> bool) (l : list A) :
  (forall x, In x l -> f x = true) -> filter f l = l.
Proof.
  induction l as [|x l IH]; intros H; simpl; trivial.
  rewrite (H x (or_introl eq_refl)), IH; trivial.
  intros y Hy. apply H. now right.
Qed.

Lemma map_fst_combine {A B : Type} (xs : list A) (ys : list B) :
  length xs = length ys -> map fst (combine xs ys) = xs.
Proof.
  revert ys. induction xs as [|x xs IH]; intros [|y ys]; simpl; trivial;
    try discriminate.
  intros H. injection H as H. now rewrite IH.
Qed.

(** X8.  On a batch in which every label is [>= 0.5], [coarse] is the sum of
    the losses of the scores against the target 1 divided by the batch size;
    on a batch without such a label (an infinite or NaN label included) it
    is [bias] times the sum of the losses against the target 0 divided by the
    batch size. *)
Theorem coarse_one_class (self : LossForRank) (scores labels : list fl) :
  length scores = length labels ->
  scores <> [] ->
  (Forall (fun l => fl_ge l half = true) labels ->
   coarse bce_elt self scores labels
   = Ok (fl_div (fl_sum (map (fun s => bce_elt s one) scores))
                (fl_of_nat (length scores)))) /\
  (Forall (fun l => fl_ge l half = false) labels ->
   coarse bce_elt self scores labels
   = Ok (fl_div (fl_mul (bias self) (fl_sum (map (fun s => bce_elt s zero) scores)))
                (fl_of_nat (length scores)))).
Proof.
  intros Hlen Hne.
  assert (Hin : forall (P : fl -> Prop) sl,
             Forall P labels -> In sl (combine scores labels) -> P (snd sl)).
  { intros P [s l] HP H. apply in_combine_r in H.
    rewrite Forall_forall in HP. now apply HP. }
  split; intros Hall; rewrite coarse_complement by assumption;
    unfold Pointwise_complement, Pointwise_with; f_equal.
  - rewrite filter_all by (intros sl H; apply (Hin _ sl Hall H)).
    rewrite filter_none
      by (intros sl H; cbn beta; now rewrite (Hin _ sl Hall H)).
    rewrite map_fst_combine by assumption. cbn [map].
    destruct scores; [congruence|]. now rewrite fl_add_zero_r.
  - rewrite filter_none by (intros sl H; apply (Hin _ sl Hall H)).
    rewrite filter_all
      by (intros sl H; cbn beta; now rewrite (Hin _ sl Hall H)).
    rewrite map_fst_combine by assumption. cbn [map].
    destruct scores; [congruence|]. now rewrite fl_add_zero_l.
Qed.

(** X9.  On the empty batch nothing raises: [coarse] divides 0 by 0 and
    [fine] takes the mean of no element, so both, and [bi], return NaN. *)
Theorem empty_batch (self : LossForRank) :
  coarse bce_elt self [] [] = Ok NaN /\
  ((0 < psg_num self)%Z ->
   fine bce_elt self [] [] = Ok NaN /\ bi bce_elt self [] [] = Ok NaN).
Proof.
  split; [reflexivity|]. intros Hp.
  assert (Hfine : fine bce_elt self [] [] = Ok NaN).
  { rewrite fine_surviving; trivial.
    - unfold batch_pairs. cbn [length]. now rewrite Nat.Div0.div_0_l.
    - cbn [length]. apply Nat.Div0.mod_0_l. }
  split; trivial. unfold bi. now rewrite Hfine.
Qed.

End EngineProperties.

(** ** Construction *)

Lemma LossForRank_init_ok (is_warm_up : bool) (bias : fl) (psg_num : Z)
    (thr bce_bias : fl) (e : LossForRank) :
  LossForRank_init is_warm_up bias psg_num thr bce_bias = Ok e ->
  is_warm_up = false /\
  e = {| bias := bias; psg_num := psg_num; ignore_minor_diff := thr;
         bce_bias := bce_bias; loss_fn := bi_method |}.
Proof.
  destruct is_warm_up; [discriminate|].
  rewrite LossForRank_init_full. intros [= <-]. now split.
Qed.

(** X10.  Construction by keywords: a keyword that is not a parameter of
    [__init__] is a TypeError, as is the [ignore_mirror_diff] that
    [_additional_init] passes, whatever the values; and every engine that the
    constructor returns evaluates [bi]. *)
Theorem LossForRank_new_cases (kwargs : list (string * pyarg)) :
  (forall k v, In (k, v) kwargs -> ~ In k LossForRank_parameters ->
               LossForRank_new kwargs = Err TypeError) /\
  (forall is_warm_up psg_num bias ignore_mirror_diff bce_bias,
     additional_init_rel_eval_fn is_warm_up psg_num bias ignore_mirror_diff bce_bias
     = Err TypeError) /\
  (forall e, LossForRank_new kwargs = Ok e ->
             loss_fn e = bi_method /\
             forall bce_elt scores labels,
               call bce_elt e scores labels = bi bce_elt e scores labels).
Proof.
  split; [|split].
  - intros k v Hin Hk. unfold LossForRank_new.
    destruct (forallb _ kwargs) eqn:E; trivial.
    rewrite forallb_forall in E. specialize (E _ Hin). cbn [fst] in E.
    apply existsb_exists in E as (k' & Hk' & Heq).
    apply String.eqb_eq in Heq. subst k'. contradiction.
  - reflexivity.
  - intros e H. unfold LossForRank_new in H.
    destruct (forallb _ kwargs); [|discriminate].
    destruct (int_arg _ kwargs 4) as [n|err].
    + apply LossForRank_init_ok in H as [Hw ->].
      repeat split; trivial.
    + destruct (LossForRank_init _ _ _ _ _); discriminate.
Qed.

(** * Further properties of the head *)

Section MoreHeadProperties.

Variable bce_elt : fl -> fl -> fl.

Lemma ans_tuple (self : LlamaForRear) items labels o :
  ans self (AsTuple items) labels <> Ok o.
Proof.
  unfold ans. intros H. do 2 bind_ok H. discriminate.
Qed.

Lemma rel_eval_tuple (self : LlamaForRear) input_ids items classes o :
  rel_eval bce_elt self input_ids (AsTuple items) classes <> Ok o.
Proof.
  unfold rel_eval. intros H. do 4 bind_ok H. discriminate.
Qed.

(** X11.  With [beta] None, [forward] looks for the relevant and the
    irrelevant token in the first sequence only and never reads [classes]:
    with one of them there it returns what [ans] returns, without them it
    raises, and an empty batch is an IndexError. *)
Theorem forward_score_only_dispatch (self : LlamaForRear) input_ids labels classes
    return_dict :
  beta self = None ->
  forward bce_elt self input_ids labels classes return_dict
  = forward bce_elt self input_ids labels None return_dict /\
  forall outputs,
    model self input_ids (resolve_return_dict self return_dict) = Ok outputs ->
    match input_ids with
    | [] => forward bce_elt self input_ids labels classes return_dict
            = Err IndexError
    | first :: _ =>
        if contains (rel_token_id self) first || contains (irr_token_id self) first
        then forward bce_elt self input_ids labels classes return_dict
             = Returns <$> ans self outputs labels
        else exists e, forward bce_elt self input_ids labels classes return_dict
                       = Err e
    end.
Proof.
  intros Hb. split.
  - unfold forward. now rewrite Hb.
  - intros outputs Hm. unfold forward. rewrite Hb, Hm. cbn [bind].
    destruct input_ids as [|first rest]; trivial. cbn [bind].
    destruct (contains _ first || contains _ first).
    + now destruct (ans self outputs labels).
    + destruct (rel_eval bce_elt self (first :: rest) outputs None) as [o|e] eqn:E.
      * now apply rel_eval_score_only in E.
      * now exists e.
Qed.

(** X12.  [ans] and [rel_eval] read [outputs.past_key_values]; when the
    backbone returns a plain tuple neither returns, and [forward] raises in
    every mode. *)
Theorem forward_tuple_raises (self : LlamaForRear) input_ids labels classes
    return_dict items :
  model self input_ids (resolve_return_dict self return_dict) = Ok (AsTuple items) ->
  (exists e, ans self (AsTuple items) labels = Err e) /\
  (exists e, rel_eval bce_elt self input_ids (AsTuple items) classes = Err e) /\
  (exists e, forward bce_elt self input_ids labels classes return_dict = Err e).
Proof.
  intros Hm.
  assert (Ha : forall l, exists e, ans self (AsTuple items) l = Err e).
  { intros l. destruct (ans self (AsTuple items) l) as [o|e] eqn:E.
    - now apply ans_tuple in E.
    - now exists e. }
  assert (Hr : forall c, exists e,
               rel_eval bce_elt self input_ids (AsTuple items) c = Err e).
  { intros c. destruct (rel_eval bce_elt self input_ids (AsTuple items) c)
      as [o|e] eqn:E.
    - now apply rel_eval_tuple in E.
    - now exists e. }
  split; [apply Ha|]. split; [apply Hr|].
  unfold forward. rewrite Hm. cbn [bind].
  destruct (beta self) as [b|].
  - destruct (Ha labels) as (e & ->). now exists e.
  - destruct input_ids as [|first rest]; [now exists IndexError|]. cbn [bind].
    destruct (contains _ first || contains _ first).
    + destruct (Ha labels) as (e & ->). now exists e.
    + destruct (Hr None) as (e & ->). now exists e.
Qed.

Lemma positions_empty_row (id : Z) (input_ids : list (list Z)) :
  In [] input_ids ->
  mapM (fun row => argmax (eq_long id row)) input_ids = Err IndexError.
Proof.
  induction input_ids as [|row ids IH]; intros H; [contradiction|].
  cbn [mapM]. destruct row as [|t row].
  - reflexivity.
  - destruct H as [H|H]; [discriminate|].
    cbn [eq_long map argmax bind]. now rewrite IH.
Qed.

(** X14.  A batch with an empty sequence has no position to take the argmax
    over: [rel_eval] raises IndexError, whatever the other sequences hold. *)
Theorem rel_eval_empty_sequence (self : LlamaForRear) input_ids outputs classes hidden :
  In [] input_ids ->
  first_item outputs = Ok hidden ->
  rel_logits_of self input_ids hidden = Err IndexError /\
  rel_eval bce_elt self input_ids outputs classes = Err IndexError.
Proof.
  intros Hin Hh.
  assert (Hl : rel_logits_of self input_ids hidden = Err IndexError)
    by (unfold rel_logits_of; now rewrite positions_empty_row).
  split; trivial. unfold rel_eval. rewrite Hh. cbn [bind]. now rewrite Hl.
Qed.

(** X15.  With [beta] set and no relevance labels [forward] never returns,
    with either value of [return_dict]; when both sub-results are computed
    the exception is the TypeError of [beta * None]. *)
Theorem forward_combined_needs_classes (self : LlamaForRear) input_ids labels
    return_dict b :
  beta self = Some b ->
  (exists e, forward bce_elt self input_ids labels None return_dict = Err e) /\
  (forall outputs sft_output rank_output,
     model self input_ids (resolve_return_dict self return_dict) = Ok outputs ->
     ans self outputs labels = Ok sft_output ->
     rel_eval bce_elt self input_ids outputs None = Ok rank_output ->
     forward bce_elt self input_ids labels None return_dict = Err TypeError).
Proof.
  intros Hb.
  assert (Hty : forall outputs sft_output rank_output,
     model self input_ids (resolve_return_dict self return_dict) = Ok outputs ->
     ans self outputs labels = Ok sft_output ->
     rel_eval bce_elt self input_ids outputs None = Ok rank_output ->
     forward bce_elt self input_ids labels None return_dict = Err TypeError).
  { intros outputs sft rank Hm Ha Hr.
    unfold forward. rewrite Hb, Hm. cbn [bind]. rewrite Ha, Hr. cbn [bind].
    destruct (ans_returns _ _ _ Ha) as (gl & lg & pkv & hs & att & -> & _).
    destruct (rel_eval_returns _ _ _ _ _ Hr)
      as (loss & lg' & rl & pkv' & hs' & att' & -> & Hloss).
    cbn in Hloss. subst loss. reflexivity. }
  split; trivial.
  destruct (forward bce_elt self input_ids labels None return_dict) as [out|e] eqn:E;
    [|now exists e].
  destruct (forward_combined_returns _ _ _ _ _ _ Hb E)
    as (Hrd & outputs & sft & rank & gl & rl & Hm & Ha & Hr & _).
  rewrite <- Hrd in Hm. specialize (Hty _ _ _ Hm Ha Hr). discriminate.
Qed.

(** X17.  In combined mode, on a well-shaped batch from an output object of
    the backbone and with one relevance label per sequence, [rel_eval]
    returns as loss the value of [bi] on the scores,
    [0.5 * Pairwise + bce_bias * Pointwise], when the batch size is a multiple
    of the group size, and raises RuntimeError when it is not. *)
Theorem rel_eval_loss (self : LlamaForRear) input_ids (o : ModelOutput) hidden
    labels b :
  beta self = Some b ->
  loss_fn (rel_eval_fn self) = bi_method ->
  (0 < psg_num (rel_eval_fn self))%Z ->
  class_of o = BaseModelOutputWithPast ->
  first_item (AsOutput o) = Ok hidden ->
  well_shaped (rel_score self) input_ids hidden ->
  length labels = length hidden ->
  let engine := rel_eval_fn self in
  let p := Z.to_nat (psg_num engine) in
  let scores :=
    map (fun rh => dot (rel_score self)
                       (nth (sentinel_position (gen_score_id self) (fst rh))
                            (snd rh) []))
        (combine input_ids hidden) in
  (length hidden mod p = 0 ->
   exists r,
     rel_eval bce_elt self input_ids (AsOutput o) (Some labels) = Ok r /\
     field r "loss"
     = PyFloat (fl_add
                  (fl_mul half (Pairwise bce_elt (ignore_minor_diff engine) p
                                         scores labels))
                  (fl_mul (bce_bias engine)
                          (Pointwise_complement bce_elt (bias engine)
                                                scores labels)))) /\
  (length hidden mod p <> 0 ->
   rel_eval bce_elt self input_ids (AsOutput o) (Some labels) = Err RuntimeError).
Proof.
  intros Hb Hfn Hp Hc Hh Hw Hlen engine p scores.
  assert (Hs : length scores = length hidden).
  { unfold scores. rewrite length_map, length_combine, (Forall2_length Hw).
    apply Nat.min_id. }
  assert (Hre : rel_eval bce_elt self input_ids (AsOutput o) (Some labels)
                = (l <- bi bce_elt engine scores labels ;;
                   new RearOutput
                     [("loss"%string, PyFloat l); ("logits"%string, PyNone);
                      ("rel_scores"%string,
                       PyTensor {| shape := [length hidden; 1]; data := scores |});
                      ("past_key_values"%string, field o "past_key_values");
                      ("hidden_states"%string, field o "hidden_states");
                      ("attentions"%string, field o "attentions")])).
  { unfold rel_eval. rewrite Hh. cbn [bind].
    rewrite (rel_logits_of_well_shaped _ Hw). cbn [bind fst snd data].
    unfold call. rewrite Hfn, Hb. fold engine. fold scores.
    unfold getattr_outputs, getattr. rewrite Hc.
    now destruct (bi bce_elt engine scores labels). }
  split; intros Hmod; rewrite Hre.
  - rewrite bi_value; trivial; [|congruence|now rewrite Hlen].
    cbn [bind]. eexists. split; reflexivity.
  - rewrite bi_not_multiple; [reflexivity|]. fold p. now rewrite Hs.
Qed.

End MoreHeadProperties.

(** ** More on the mask *)

Lemma fl_lt_le_trans (a b c : fl) :
  fl_le a b = true -> fl_lt b c = true -> fl_lt a c = true.
Proof.
  unfold fl_le.
  destruct a as [x|[|]|], b as [y|[|]|], c as [z|[|]|]; simpl;
    try discriminate; trivial.
  intros Hxy Hyz. apply negb_true_iff in Hxy.
  apply Qc_ltb_lt in Hyz. apply Qc_ltb_lt.
  apply Qcle_lt_trans with y; trivial.
  apply Qcnot_lt_le. intros H. apply Qc_ltb_lt in H. congruence.
Qed.

(** X18.  Raising [ignore_minor_diff] never lets a new pair through: a
    difference that passes the mask for a threshold passes it for every
    smaller one. *)
Theorem mask_threshold_monotone (thr thr' d : fl) :
  fl_le thr thr' = true ->
  fl_gt d thr' && negb (isinf d) = true ->
  fl_gt d thr && negb (isinf d) = true.
Proof.
  intros Hle H. apply andb_prop in H as [Hgt Hinf].
  unfold fl_gt in *. now rewrite (fl_lt_le_trans _ _ _ Hle Hgt), Hinf.
Qed.

(** ** The further properties at sample inputs *)

Lemma mask_one_order_witness :
  fl_gt (diff [one; zero] (1, 0)) zero && negb (isinf (diff [one; zero] (1, 0)))
  = false.
Proof.
  apply (mask_one_order zero [one; zero] 0 1); reflexivity.
Defined.

Lemma fine_raises_witness :
  fine bce_elt_upper loss_sample [one; zero; one] [one; zero; one]
  = Err RuntimeError /\
  fine bce_elt_upper loss_sample [one; zero; one; zero] [one; zero]
  = Err IndexError.
Proof.
  split.
  - apply (proj1 (fine_raises bce_elt_upper loss_sample
                    [one; zero; one] [one; zero; one])).
    right. left. discriminate.
  - apply (proj1 (proj2 (fine_raises bce_elt_upper loss_sample
                           [one; zero; one; zero] [one; zero])));
      first [reflexivity | discriminate].
Defined.

Lemma coarse_raises_witness :
  coarse bce_elt_upper loss_sample [one; zero; one] [one; zero] = Err IndexError.
Proof.
  apply (proj2 (coarse_raises bce_elt_upper loss_sample [one; zero; one] [one; zero])).
  discriminate.
Defined.

Lemma bi_terms_witness :
  bi bce_elt_upper loss_sample [one; zero; one] [one; zero; one] = Err RuntimeError /\
  bi bce_elt_upper loss_sample scores_sample grades_sample
  = Ok (fl_add
          (fl_mul half (Pairwise bce_elt_upper zero 2 scores_sample grades_sample))
          (fl_mul half
                  (Pointwise_complement bce_elt_upper one scores_sample grades_sample))).
Proof.
  split.
  - apply (proj2 (bi_terms bce_elt_upper loss_sample [one; zero; one] [one; zero; one]
                    eq_refl eq_refl)).
    discriminate.
  - apply (proj1 (bi_terms bce_elt_upper loss_sample scores_sample grades_sample
                    eq_refl eq_refl)).
    reflexivity.
Defined.

Lemma fine_targets_one_witness :
  fine bce_elt_upper loss_sample scores_sample grades_sample
  = Ok (average
          (map (fun tp => bce_elt_upper (snd tp) one)
               (filter (fun tp => survives zero (fst tp))
                       (batch_pairs 2 scores_sample grades_sample)))).
Proof.
  apply (fine_targets_one bce_elt_upper loss_sample scores_sample grades_sample);
    reflexivity.
Defined.

(** In a group of three with one infinite label, the score under that
    label can be changed freely, while the score under a finite label
    cannot. *)
Lemma fine_ignores_unlabelled_witness :
  fine bce_elt_upper loss_triple [one; ratio 2 1; ratio 3 1] [one; zero; Inf true]
  = fine bce_elt_upper loss_triple [one; ratio 2 1; ratio 7 1] [one; zero; Inf true] /\
  (exists v,
     fine bce_elt_upper loss_triple [one; ratio 2 1; ratio 3 1] [one; zero; Inf true]
     = Ok (Fin v)) /\
  fine bce_elt_upper loss_triple [one; ratio 2 1; ratio 3 1] [one; zero; Inf true]
  <> fine bce_elt_upper loss_triple [one; ratio 5 1; ratio 3 1] [one; zero; Inf true].
Proof.
  split; [|split].
  - apply (fine_ignores_unlabelled bce_elt_upper loss_triple); try reflexivity.
    intros [|[|[|k]]]; cbn [nth isinf]; intros H;
      first [discriminate | reflexivity | now destruct k].
  - eexists. vm_compute. reflexivity.
  - vm_compute. discriminate.
Defined.

Lemma fine_single_candidate_witness :
  fine bce_elt_upper loss_single [one; ratio 2 1; zero] [one; zero; half] = Ok NaN /\
  bi bce_elt_upper loss_single [one; ratio 2 1; zero] [one; zero; half] = Ok NaN.
Proof.
  apply (fine_single_candidate bce_elt_upper loss_single); reflexivity.
Defined.

Lemma coarse_one_class_witness :
  coarse bce_elt_upper loss_sample [one; ratio 2 1] [one; half]
  = Ok (fl_div (fl_sum (map (fun s => bce_elt_upper s one) [one; ratio 2 1]))
               (fl_of_nat 2)) /\
  coarse bce_elt_upper loss_sample [one; ratio 2 1] [zero; Inf true]
  = Ok (fl_div (fl_mul one (fl_sum (map (fun s => bce_elt_upper s zero)
                                        [one; ratio 2 1])))
               (fl_of_nat 2)).
Proof.
  split.
  - apply (proj1 (coarse_one_class bce_elt_upper loss_sample
                    (scores := [one; ratio 2 1]) [one; half]
                    eq_refl ltac:(discriminate))).
    repeat constructor.
  - apply (proj2 (coarse_one_class bce_elt_upper loss_sample
                    (scores := [one; ratio 2 1]) [zero; Inf true]
                    eq_refl ltac:(discriminate))).
    repeat constructor.
Defined.

Lemma empty_batch_witness :
  fine bce_elt_upper loss_sample [] [] = Ok NaN /\
  bi bce_elt_upper loss_sample [] [] = Ok NaN.
Proof.
  apply (proj2 (empty_batch bce_elt_upper loss_sample)). reflexivity.
Defined.

Lemma LossForRank_new_cases_witness :
  LossForRank_new [("warm_up"%string, ArgBool false)] = Err TypeError /\
  exists e, LossForRank_new [("psg_num"%string, ArgInt 2)] = Ok e /\
            loss_fn e = bi_method.
Proof.
  split.
  - apply (proj1 (LossForRank_new_cases [("warm_up"%string, ArgBool false)])
             "warm_up"%string (ArgBool false)).
    + now left.
    + intros H. repeat (destruct H as [H|H]; [discriminate|]). contradiction.
  - eexists. split; [reflexivity|].
    apply (proj2 (proj2 (LossForRank_new_cases [("psg_num"%string, ArgInt 2)]))).
    reflexivity.
Defined.

Lemma forward_score_only_dispatch_witness :
  (exists e,
     forward bce_elt_upper (rear_sample None) ids_sample None (Some [one; zero]) None
     = Err e) /\
  forward bce_elt_upper (rear_sample None) [[1; 32003]; [32002; 2]]%Z None None None
  = Returns <$> ans (rear_sample None)
                    (AsOutput {| class_of := BaseModelOutputWithPast;
                                 fields := [("last_hidden_state"%string,
                                             PyHidden (hidden_of
                                                         [[1; 32003]; [32002; 2]]%Z))] |})
                    None.
Proof.
  split.
  - apply (proj2 (forward_score_only_dispatch bce_elt_upper (rear_sample None)
                    ids_sample None (Some [one; zero]) None eq_refl)
             (AsOutput outputs_sample) eq_refl).
  - apply (proj2 (forward_score_only_dispatch bce_elt_upper (rear_sample None)
                    [[1; 32003]; [32002; 2]]%Z None None None eq_refl)
             _ eq_refl).
Defined.

Lemma forward_tuple_raises_witness :
  exists e,
    forward bce_elt_upper (rear_sample None) [[1; 32001; 5]%Z] None None (Some false)
    = Err e.
Proof.
  apply (forward_tuple_raises bce_elt_upper (rear_sample None) [[1; 32001; 5]%Z]
           None None (Some false) (items := [PyHidden (hidden_of [[1; 32001; 5]%Z])])).
  reflexivity.
Defined.

Lemma rel_eval_empty_sequence_witness :
  rel_eval bce_elt_upper (rear_sample (Some half)) [[]; []]
           (AsOutput {| class_of := BaseModelOutputWithPast;
                        fields := [("last_hidden_state"%string,
                                    PyHidden [[]; []])] |})
           None
  = Err IndexError.
Proof.
  apply (rel_eval_empty_sequence bce_elt_upper (rear_sample (Some half))
           [[]; []] _ None (hidden := [[]; []])).
  - now left.
  - reflexivity.
Defined.

Lemma forward_combined_needs_classes_witness :
  forward bce_elt_upper (rear_sample (Some half)) ids_sample None None None
  = Err TypeError.
Proof.
  eapply (proj2 (forward_combined_needs_classes bce_elt_upper
                   (rear_sample (Some half)) ids_sample None None
                   (b := half) eq_refl));
    reflexivity.
Defined.

Lemma rel_eval_loss_witness :
  exists r,
    rel_eval bce_elt_upper (rear_sample (Some half)) ids_sample
             (AsOutput outputs_sample) (Some [one; zero]) = Ok r /\
    field r "loss"
    = PyFloat
        (fl_add
           (fl_mul half
              (Pairwise bce_elt_upper zero 2
                 [dot [one; half] [fl_of_Z 32002; one];
                  dot [one; half] [fl_of_Z 32002; one]] [one; zero]))
           (fl_mul half
              (Pointwise_complement bce_elt_upper one
                 [dot [one; half] [fl_of_Z 32002; one];
                  dot [one; half] [fl_of_Z 32002; one]] [one; zero]))).
Proof.
  apply (proj1 (rel_eval_loss bce_elt_upper (rear_sample (Some half)) outputs_sample
                  [one; zero] (b := half) eq_refl eq_refl eq_refl eq_refl eq_refl
                  ids_sample_well_shaped eq_refl)).
  reflexivity.
Defined.

Lemma mask_threshold_monotone_witness :
  fl_gt (ratio 3 1) zero && negb (isinf (ratio 3 1)) = true.
Proof.
  apply (mask_threshold_monotone zero one (ratio 3 1)); reflexivity.
Defined.
